(** * Jaggery Store API: checkout and seeding

    A shallow embedding of [main.py] and [schemas.py]: the pydantic models
    with their field constraints, the [/seed] and [/checkout] handlers, and
    the document store they talk to.

    - Python [float] is IEEE 754 binary64, modelled with the Standard
      Library's [spec_float] at precision 53 and maximal exponent 1024.
    - Python [int] is [Z]; [str] is a [string] holding the text's UTF-8
      bytes: [len] and slices count characters, not bytes ([str_len],
      [take_str]).
    - A dict used as a map ([product_map]) is a [gmap string _].
    - A handler is a state-and-exception computation over the database:
      an exception leaves the database as it was when it was raised.
    - pydantic, bson and pymongo are libraries: their constructors and
      queries are modelled by what they do. The store is taken to be
      connected: [db] is a pymongo [Database], not [None]. *)

From Stdlib Require Import ZArith Floats.SpecFloat Lia.
From Stdlib Require Import Strings.Byte Strings.Ascii.
From stdpp Require Import gmap strings list.

(** ** Python floats *)

Module Float.

Definition float := spec_float.

Definition prec : Z := 53.
Definition emax : Z := 1024.

Definition add : float -> float -> float := SFadd prec emax.
Definition mul : float -> float -> float := SFmul prec emax.
Definition div : float -> float -> float := SFdiv prec emax.

(** [x >= y] *)
Definition ge (x y : float) : bool := SFleb y x.

(** The float nearest to an integer, ties to even; an infinite result
    when the integer is out of range. *)
Definition of_Z (n : Z) : float := binary_normalize prec emax n 0 false.

(** [float(n)] for a Python int [n], as the arithmetic operators convert
    an int operand: [None] is OverflowError. *)
Definition of_int (n : Z) : option float :=
  match of_Z n with
  | S754_infinity _ => None
  | x => Some x
  end.

(** A decimal literal [m / 10^places], read to the nearest float. *)
Definition decimal (m : Z) (places : Z) : float :=
  div (of_Z m) (of_Z (10 ^ places)).

Definition zero : float := S754_zero false.
Definition one : float := Eval vm_compute in decimal 1 0.
Definition ten : float := Eval vm_compute in decimal 10 0.

(** The quotient [num / den] rounded to the nearest integer, ties to
    even ([den] positive). *)
Definition half_even (num den : Z) : Z :=
  let q := (num / den)%Z in
  let r := (num mod den)%Z in
  match (2 * r ?= den)%Z with
  | Lt => q
  | Gt => (q + 1)%Z
  | Eq => if Z.even q then q else (q + 1)%Z
  end.

(** [round(x, 2)]: the exact value of [x] is rounded to a multiple of
    1/100, ties to even, and that decimal is read back to the nearest
    float. Infinities and NaN round to themselves; the sign of a zero
    result is the sign of [x]. *)
Definition round2 (x : float) : float :=
  match x with
  | S754_finite s m e =>
      let n := match e with
               | Zneg p => half_even (Zpos m * 100) (2 ^ Zpos p)
               | _ => (Zpos m * 100 * 2 ^ e)%Z
               end in
      match n with
      | Zpos k => div (S754_finite s k 0) (S754_finite false 100 0)
      | _ => S754_zero s
      end
  | _ => x
  end.

(** [x >= 0] holds exactly for the zeros, the positive finite floats and
    plus infinity. *)
Definition nonneg (x : float) : Prop :=
  match x with
  | S754_zero _ => True
  | S754_finite s _ _ => s = false
  | S754_infinity s => s = false
  | S754_nan => False
  end.

End Float.

Abbreviation float := Float.float.

Declare Scope float_scope.
Delimit Scope float_scope with float.
Infix "+" := Float.add : float_scope.
Infix "*" := Float.mul : float_scope.

(** ** Python text *)

(** A byte that continues a character of UTF-8 text (10xxxxxx). *)
Definition is_continuation (c : ascii) : bool :=
  let n := N_of_ascii c in ((128 <=? n) && (n <? 192))%N.

(** [len(s)]: the number of characters. *)
Fixpoint str_len (s : string) : nat :=
  match s with
  | EmptyString => 0
  | String c s' => if is_continuation c then str_len s' else S (str_len s')
  end.

(** [s[:n]]: the first [n] characters, each with all its bytes. *)
Fixpoint take_str (n : nat) (s : string) : string :=
  match s with
  | EmptyString => EmptyString
  | String c s' =>
      if is_continuation c then String c (take_str n s')
      else match n with
           | O => EmptyString
           | S n' => String c (take_str n' s')
           end
  end.

(** ASCII whitespace: space, tab, line feed, vertical tab, form feed and
    carriage return. *)
Definition is_space (c : ascii) : bool :=
  let n := N_of_ascii c in ((n =? 32) || ((9 <=? n) && (n <=? 13)))%N.

(** ** bson.ObjectId

    An identifier of the store is twelve bytes; [str] prints them as 24
    lower-case hexadecimal digits. *)

Inductive ObjectId : Type :=
  Oid (b0 b1 b2 b3 b4 b5 b6 b7 b8 b9 b10 b11 : byte).

Definition oid_bytes (o : ObjectId) : list byte :=
  match o with
  | Oid b0 b1 b2 b3 b4 b5 b6 b7 b8 b9 b10 b11 =>
      [b0; b1; b2; b3; b4; b5; b6; b7; b8; b9; b10; b11]
  end.

Definition hex_digit (n : N) : ascii :=
  if (n <? 10)%N then ascii_of_N (48 + n) else ascii_of_N (87 + n).

Definition hex_value (c : ascii) : option N :=
  let n := N_of_ascii c in
  if ((48 <=? n) && (n <=? 57))%N then Some (n - 48)%N
  else if ((97 <=? n) && (n <=? 102))%N then Some (n - 87)%N
  else if ((65 <=? n) && (n <=? 70))%N then Some (n - 55)%N
  else None.

Fixpoint hexlify (bs : list byte) : string :=
  match bs with
  | [] => EmptyString
  | b :: bs' =>
      String (hex_digit (Byte.to_N b / 16))
        (String (hex_digit (Byte.to_N b mod 16)) (hexlify bs'))
  end.

(** The bytes written as pairs of hexadecimal digits, of either case, and
    nothing else. *)
Fixpoint fromhex (s : string) : option (list byte) :=
  match s with
  | EmptyString => Some []
  | String c1 (String c2 s') =>
      match hex_value c1, hex_value c2, fromhex s' with
      | Some h, Some l, Some bs =>
          match Byte.of_N (16 * h + l) with
          | Some b => Some (b :: bs)
          | None => None
          end
      | _, _, _ => None
      end
  | String _ EmptyString => None
  end.

Definition str_of_ObjectId (o : ObjectId) : string := hexlify (oid_bytes o).

(** A well-formed identifier: the one that a string of exactly 24
    hexadecimal digits writes, [None] for any other string. It reads back
    what [str] prints. The constructor [ObjectId(s)] is more lenient, see
    [ObjectId_binary] below. *)
Definition ObjectId_of_str (s : string) : option ObjectId :=
  match fromhex s with
  | Some [b0; b1; b2; b3; b4; b5; b6; b7; b8; b9; b10; b11] =>
      Some (Oid b0 b1 b2 b3 b4 b5 b6 b7 b8 b9 b10 b11)
  | _ => None
  end.

(** [bytes.fromhex(s)]: two hexadecimal digits per byte, ASCII whitespace
    before a byte skipped; [None] is ValueError. *)
Fixpoint bytes_fromhex (s : string) : option (list byte) :=
  match s with
  | EmptyString => Some []
  | String c1 s1 =>
      if is_space c1 then bytes_fromhex s1
      else
        match s1 with
        | EmptyString => None
        | String c2 s2 =>
            match hex_value c1, hex_value c2, bytes_fromhex s2 with
            | Some h, Some l, Some bs =>
                match Byte.of_N (16 * h + l) with
                | Some b => Some (b :: bs)
                | None => None
                end
            | _, _, _ => None
            end
        end
  end.

(** The bytes held by [ObjectId(s)] for a string [s]: the constructor
    checks [len(s) == 24] and keeps [bytes.fromhex(s)], whatever their
    number; [None] is InvalidId. *)
Definition ObjectId_binary (s : string) : option (list byte) :=
  if Nat.eqb (str_len s) 24 then bytes_fromhex s else None.

#[global] Instance byte_eq_dec : EqDecision byte := Byte.byte_eq_dec.

#[global] Instance ObjectId_eq_dec : EqDecision ObjectId.
Proof.
  intros x y. unfold Decision. decide equality; apply Byte.byte_eq_dec.
Defined.

(** The identifier the store hands out for its [n]-th insertion. *)
Definition byte_of_N (n : N) : byte :=
  match Byte.of_N (n mod 256) with
  | Some b => b
  | None => Byte.x00
  end.

Definition ObjectId_of_N (n : N) : ObjectId :=
  let b i := byte_of_N (n / 256 ^ i) in
  Oid (b 11%N) (b 10%N) (b 9%N) (b 8%N) (b 7%N) (b 6%N)
      (b 5%N) (b 4%N) (b 3%N) (b 2%N) (b 1%N) (b 0%N).

(** ** Exceptions and results *)

Inductive exception : Type :=
  | HTTPException (status_code : Z) (detail : detail)
  | InvalidId (oid : string)
  | OverflowError
  | NotImplementedError
  | ValidationError (model : string) (fields : list string)
with detail : Type :=
  | Text (s : string)
  | str (e : exception).

Inductive result (A : Type) : Type :=
  | Ok (a : A)
  | Err (e : exception).
Arguments Ok {A} a.
Arguments Err {A} e.

#[global] Instance result_ret : MRet result := fun _ a => Ok a.
#[global] Instance result_bind : MBind result := fun _ _ f r =>
  match r with
  | Ok a => f a
  | Err e => Err e
  end.

(** ** schemas.py: the pydantic models

    A model's constructor validates the [Field] constraints and raises
    ValidationError naming the model and the fields that failed. *)

Definition check (ok : bool) (field : string) : list string :=
  if ok then [] else [field].

Module Product.
Record t : Type := Build {
  title : string;
  description : option string;
  price : float;
  category : string;
  in_stock : bool;
  image : option string;
  sku : option string;
  weight_g : option Z
}.

Definition new title description price category in_stock image sku weight_g
  : result t :=
  match check (Float.ge price Float.zero) "price"
        ++ check (from_option (Z.leb 0) true weight_g) "weight_g" with
  | [] => Ok (Build title description price category in_stock image sku
                weight_g)
  | errors => Err (ValidationError "Product" errors)
  end.
End Product.

Module OrderItem.
Record t : Type := Build {
  product_id : string;
  title : string;
  price : float;
  quantity : Z
}.

Definition new product_id title price quantity : result t :=
  match check (Float.ge price Float.zero) "price"
        ++ check (1 <=? quantity)%Z "quantity" with
  | [] => Ok (Build product_id title price quantity)
  | errors => Err (ValidationError "OrderItem" errors)
  end.
End OrderItem.

Module Order.
Record t : Type := Build {
  customer_name : string;
  email : string;
  phone : string;
  address_line : string;
  city : string;
  pincode : string;
  payment_method : string;
  items : list OrderItem.t;
  subtotal : float;
  shipping : float;
  total : float;
  status : string
}.

Definition new customer_name email phone address_line city pincode
    payment_method items subtotal shipping total status : result t :=
  match check (Float.ge subtotal Float.zero) "subtotal"
        ++ check (Float.ge shipping Float.zero) "shipping"
        ++ check (Float.ge total Float.zero) "total" with
  | [] => Ok (Build customer_name email phone address_line city pincode
                payment_method items subtotal shipping total status)
  | errors => Err (ValidationError "Order" errors)
  end.
End Order.

(** ** main.py: the request models *)

Module CartItem.
Record t : Type := Build {
  product_id : string;
  quantity : Z
}.
End CartItem.

Module CheckoutRequest.
Record t : Type := Build {
  name : string;
  email : string;
  phone : string;
  address_line : string;
  city : string;
  pincode : string;
  payment_method : string;
  cart : list CartItem.t
}.
End CheckoutRequest.

(** ** The document store

    A document is what [create_document] wrote from a model, under the
    identifier the store gave it: in the product collection the keys
    [title] and [price] are there, so [prod.get("title")] and
    [prod.get("price", 0)] read the stored fields. *)

Record Document (A : Type) : Type := {
  _id : ObjectId;
  body : A
}.
Arguments _id {A} d.
Arguments body {A} d.
Arguments Build_Document {A} _ _.

Record Database : Type := {
  db_product : list (Document Product.t);
  db_order : list (Document Order.t);
  db_inserted : N
}.

(** A handler body: it reads and writes the database and may raise. What
    was written before an exception stays written. *)
Definition handler (A : Type) : Type := Database -> result A * Database.

#[global] Instance handler_ret : MRet handler := fun _ a db => (Ok a, db).
#[global] Instance handler_bind : MBind handler := fun _ _ f m db =>
  match m db with
  | (Ok a, db') => f a db'
  | (Err e, db') => (Err e, db')
  end.

(** A computation that does not touch the database. *)
Definition pure {A} (r : result A) : handler A := fun db => (r, db).

(** [db["product"].find(query)]: the matching documents, in collection
    order. *)
Definition find_product (query : Document Product.t -> bool)
  : handler (list (Document Product.t)) :=
  fun db => (Ok (List.filter query (db_product db)), db).

(** [{"_id": {"$in": ids}}]: the documents whose identifier has the bytes of
    one of [ids]. *)
Definition id_in (ids : list (list byte)) (d : Document Product.t) : bool :=
  bool_decide (oid_bytes (_id d) ∈ ids).

(** [{"sku": {"$in": skus}}] *)
Definition sku_in (skus : list string) (d : Document Product.t) : bool :=
  match Product.sku (body d) with
  | Some s => bool_decide (s ∈ skus)
  | None => false
  end.

Module Collection.
Inductive t : Type := product | order.
End Collection.

Definition model (c : Collection.t) : Type :=
  match c with
  | Collection.product => Product.t
  | Collection.order => Order.t
  end.

(** Modelled from the spec: [create_document] of the database module, which
    is not among the sources. "insert(order) -> identifier: persists a new
    order, returns its assigned identifier", and the same for a product.
    The identifier is assigned by the store; here the store numbers its
    insertions. The collection named after a model holds that model's
    documents. *)
Definition create_document (c : Collection.t) : model c -> handler string :=
  match c with
  | Collection.product => fun data db =>
      let oid := ObjectId_of_N (db_inserted db) in
      (Ok (str_of_ObjectId oid),
       {| db_product := db_product db ++ [Build_Document oid data];
          db_order := db_order db;
          db_inserted := N.succ (db_inserted db) |})
  | Collection.order => fun data db =>
      let oid := ObjectId_of_N (db_inserted db) in
      (Ok (str_of_ObjectId oid),
       {| db_product := db_product db;
          db_order := db_order db ++ [Build_Document oid data];
          db_inserted := N.succ (db_inserted db) |})
  end.

(** ** main.py: [POST /seed] *)

Record SeedResult : Type := {
  inserted : Z;
  message : option string
}.

Definition seed_skus : list string := ["JAG-500"; "JAG-1000"].

(** [bool(db)]: a pymongo [Database] does not implement truth value testing
    and raises NotImplementedError. *)
Definition db_truth_value : handler bool := pure (Err NotImplementedError).

(** The body of the [try]: [existing] is
    [list(db["product"].find(...)) if db else []]. *)
Definition seed_products_body : handler SeedResult :=
  connected ← db_truth_value;
  existing ← (if connected : bool then find_product (sku_in seed_skus)
              else mret []);
  match existing with
  | _ :: _ =>
      mret {| inserted := 0; message := Some "Products already exist" |}
  | [] =>
      p1 ← pure (Product.new
        "Jaggery Powder 500g"
        (Some "Pure, chemical-free jaggery powder. Perfect for tea, coffee and cooking.")
        (Float.decimal 249 2)
        "jaggery"
        true
        (Some "/jaggery-500.jpg")
        (Some "JAG-500")
        (Some 500%Z));
      p2 ← pure (Product.new
        "Jaggery Powder 1kg"
        (Some "Pure, chemical-free jaggery powder family pack.")
        (Float.decimal 449 2)
        "jaggery"
        true
        (Some "/jaggery-1000.jpg")
        (Some "JAG-1000")
        (Some 1000%Z));
      _ ← create_document Collection.product p1;
      _ ← create_document Collection.product p2;
      mret {| inserted := 2; message := None |}
  end.

(** [except Exception as e: raise HTTPException(status_code=500, ...)] *)
Definition except_Exception {A} (r : result A) : result A :=
  match r with
  | Ok a => Ok a
  | Err e => Err (HTTPException 500 (str e))
  end.

Definition seed_products : Database -> result SeedResult * Database :=
  fun db =>
    let (r, db') := seed_products_body db in (except_Exception r, db').

(** ** main.py: [POST /checkout] *)

Record PaymentInfo : Type := {
  provider : string;
  payment_status : string;
  transaction_id : string
}.

Record CheckoutResult : Type := {
  order_id : string;
  total : float;
  status : string;
  payment : option PaymentInfo
}.

(** [{str(p["_id"]): p for p in products}]: a later document replaces an
    earlier one under the same key. *)
Definition product_map_of (products : list (Document Product.t))
  : gmap string (Document Product.t) :=
  foldl (fun m p => <[str_of_ObjectId (_id p) := p]> m) ∅ products.

(** [HTTPException(status_code=404, detail=f"Product {id} not found")] *)
Definition not_found (product_id : string) : exception :=
  HTTPException 404 (Text ("Product " +:+ product_id +:+ " not found")).

(** The [for ci in payload.cart] loop, from the state [(items, subtotal)]
    it has reached. *)
Fixpoint cart_loop (product_map : gmap string (Document Product.t))
    (cart : list CartItem.t) (items : list OrderItem.t) (subtotal : float)
  : result (list OrderItem.t * float) :=
  match cart with
  | [] => Ok (items, subtotal)
  | ci :: cart' =>
      match product_map !! CartItem.product_id ci with
      | None => Err (not_found (CartItem.product_id ci))
      | Some prod =>
          match Float.of_int (CartItem.quantity ci) with
          | None => Err OverflowError
          | Some quantity =>
              let line_total :=
                Float.mul (Product.price (body prod)) quantity in
              let subtotal := Float.add subtotal line_total in
              item ← OrderItem.new (CartItem.product_id ci)
                       (Product.title (body prod))
                       (Product.price (body prod))
                       (CartItem.quantity ci);
              cart_loop product_map cart' (items ++ [item]) subtotal
          end
      end
  end.

(** [ObjectId(s)] as a computation that may raise; the object is known by
    its bytes. *)
Definition ObjectId_new (s : string) : result (list byte) :=
  match ObjectId_binary s with
  | Some bytes => Ok bytes
  | None => Err (InvalidId s)
  end.

(** [0.0 if subtotal >= 10 else 1.0] *)
Definition shipping_for (subtotal : float) : float :=
  if Float.ge subtotal Float.ten then Float.zero else Float.one.

(** ["paid" if payload.payment_method == "card" else "pending"] *)
Definition status_for (payment_method : string) : string :=
  if decide (payment_method = "card") then "paid" else "pending".

(** The body of the [try]. *)
Definition checkout_body (payload : CheckoutRequest.t)
  : handler CheckoutResult :=
  ids ← pure (mapM (fun ci => ObjectId_new (CartItem.product_id ci))
                (CheckoutRequest.cart payload));
  products ← find_product (id_in ids);
  let product_map := product_map_of products in
  '(items, subtotal) ←
    pure (cart_loop product_map (CheckoutRequest.cart payload) []
            Float.zero);
  let shipping := shipping_for subtotal in
  let total := Float.add subtotal shipping in
  order ← pure (Order.new
    (CheckoutRequest.name payload)
    (CheckoutRequest.email payload)
    (CheckoutRequest.phone payload)
    (CheckoutRequest.address_line payload)
    (CheckoutRequest.city payload)
    (CheckoutRequest.pincode payload)
    (CheckoutRequest.payment_method payload)
    items
    (Float.round2 subtotal)
    (Float.round2 shipping)
    (Float.round2 total)
    (status_for (CheckoutRequest.payment_method payload)));
  order_id ← create_document Collection.order order;
  let payment_info :=
    if decide (CheckoutRequest.payment_method payload = "card")
    then Some {| provider := "mock"; payment_status := "succeeded";
                 transaction_id := order_id |}
    else None in
  mret {| order_id := order_id; total := Order.total order;
          status := Order.status order; payment := payment_info |}.

(** [except HTTPException: raise], then
    [except Exception as e: raise HTTPException(status_code=500, ...)] *)
Definition except_HTTPException_Exception {A} (r : result A) : result A :=
  match r with
  | Ok a => Ok a
  | Err (HTTPException status_code detail) =>
      Err (HTTPException status_code detail)
  | Err e => Err (HTTPException 500 (str e))
  end.

Definition checkout (payload : CheckoutRequest.t)
  : Database -> result CheckoutResult * Database :=
  fun db =>
    let (r, db') := checkout_body payload db in
    (except_HTTPException_Exception r, db').

(** ** schemas.py: [User] *)

Module User.
Record t : Type := Build {
  name : string;
  email : string;
  address : string;
  age : option Z;
  is_active : bool
}.

(** [age] defaults to [None] and [is_active] to [True] when the caller leaves
    them out: an argument left out is [None] here. *)
Definition new name email address (age : option Z) (is_active : option bool)
  : result t :=
  match check (from_option (fun a => (0 <=? a) && (a <=? 120))%Z true age)
          "age" with
  | [] => Ok (Build name email address age (default true is_active))
  | errors => Err (ValidationError "User" errors)
  end.
End User.

(** ** main.py: [GET /products] *)

(** Modelled from the spec: [get_documents] of the database module, which is
    not among the sources. "listAll() -> list of Product: returns every
    product currently stored, each with its identifier attached". *)
Definition get_documents (c : Collection.t)
  : handler (list (Document (model c))) :=
  match c with
  | Collection.product => fun db => (Ok (db_product db), db)
  | Collection.order => fun db => (Ok (db_order db), db)
  end.

(** A product as [/products] returns it: the document with its ["_id"]
    replaced by a string, or by [None] when the key is not there. *)
Record ListedProduct : Type := {
  listed_id : option string;
  listed : Product.t
}.

(** The body of the [try]. A document read from the store has its ["_id"]. *)
Definition list_products_body : handler (list ListedProduct) :=
  items ← get_documents Collection.product;
  mret ((fun it : Document Product.t =>
           {| listed_id := Some (str_of_ObjectId (_id it));
              listed := body it |}) <$> items).

Definition list_products
  : Database -> result (list ListedProduct) * Database :=
  fun db =>
    let (r, db') := list_products_body db in (except_Exception r, db').

(** ** main.py: [GET /test]

    What the handler observes of its surroundings is made explicit: the
    global [db] ([None], or a handle of which it reads [name] when the
    attribute is there and calls [list_collection_names], which returns the
    names or raises with a message), and the environment variable
    [DATABASE_URL]. Reading these does not raise, so the outer [except] is
    never entered. *)

Record DbHandle : Type := {
  handle_name : option string;
  list_collection_names : string + list string
}.

Record TestResponse : Type := {
  backend : string;
  database : string;
  database_url : option string;
  database_name : option string;
  connection_status : string;
  collections : list string
}.

(** The truth value of a string that may be [None]. *)
Definition truthy (s : option string) : bool :=
  match s with
  | Some (String _ _) => true
  | _ => false
  end.

Definition test_database (db : option DbHandle) (DATABASE_URL : option string)
  : TestResponse :=
  let response :=
    {| backend := "✅ Running";
       database := "❌ Not Available";
       database_url := None;
       database_name := None;
       connection_status := "Not Connected";
       collections := [] |} in
  match db with
  | Some db =>
      let database_url :=
        Some (if truthy DATABASE_URL then "✅ Set" else "❌ Not Set") in
      let database_name :=
        Some (match handle_name db with
              | Some name => name
              | None => "✅ Connected"
              end) in
      match list_collection_names db with
      | inr collections =>
          {| backend := backend response;
             database := "✅ Connected & Working";
             database_url := database_url;
             database_name := database_name;
             connection_status := "Connected";
             collections := collections |}
      | inl e =>
          {| backend := backend response;
             database := "⚠️ Connected but Error: " +:+ take_str 50 e;
             database_url := database_url;
             database_name := database_name;
             connection_status := "Connected";
             collections := collections response |}
      end
  | None =>
      {| backend := backend response;
         database := "⚠️ Available but not initialized";
         database_url := database_url response;
         database_name := database_name response;
         connection_status := connection_status response;
         collections := collections response |}
  end.

(** ** Vocabulary of the statements *)

(** The identifier the store assigns to the next inserted document. *)
Definition next_id (db : Database) : ObjectId :=
  ObjectId_of_N (db_inserted db).

(** The database after [create_document("order", o)]. *)
Definition insert_order (db : Database) (o : Order.t) : Database :=
  {| db_product := db_product db;
     db_order := db_order db ++ [Build_Document (next_id db) o];
     db_inserted := N.succ (db_inserted db) |}.

(** The product a cart line names: the document of the catalog whose
    identifier prints as [product_id] (the last one, should the list hold
    several). *)
Definition catalog_get (db : Database) (product_id : string)
  : option (Document Product.t) :=
  last (List.filter
          (fun d => String.eqb (str_of_ObjectId (_id d)) product_id)
          (db_product db)).

(** The order line checkout records for a cart line and its product. *)
Definition snapshot (prod : Document Product.t) (ci : CartItem.t)
  : OrderItem.t :=
  OrderItem.Build (CartItem.product_id ci) (Product.title (body prod))
    (Product.price (body prod)) (CartItem.quantity ci).

Definition snapshot_of (lookup : string -> option (Document Product.t))
    (ci : CartItem.t) (item : OrderItem.t) : Prop :=
  exists prod,
    lookup (CartItem.product_id ci) = Some prod /\ item = snapshot prod ci.

(** Unit price times quantity, as floats. *)
Definition line_total (item : OrderItem.t) : float :=
  Float.mul (OrderItem.price item) (Float.of_Z (OrderItem.quantity item)).

(** The sum of a list of floats, accumulated from [0.0], left to right. *)
Definition fsum (xs : list float) : float := foldl Float.add Float.zero xs.

(** A cart line the loop gets past: its product is found and has a price
    that [OrderItem] accepts, and its quantity is at least 1 and converts to
    a float. *)
Definition line_resolves (lookup : string -> option (Document Product.t))
    (ci : CartItem.t) : Prop :=
  exists prod,
    lookup (CartItem.product_id ci) = Some prod
    /\ Float.nonneg (Product.price (body prod))
    /\ (1 <= CartItem.quantity ci)%Z
    /\ is_Some (Float.of_int (CartItem.quantity ci)).

Definition ObjectId_of (ci : CartItem.t) : result (list byte) :=
  ObjectId_new (CartItem.product_id ci).

(** Lines 114 to 131 of [checkout]: the identifiers are converted, the
    products fetched and the cart walked; the result is the list of order
    lines and the unrounded subtotal. *)
Definition resolve_cart (cart : list CartItem.t) (db : Database)
  : result (list OrderItem.t * float) :=
  ids ← mapM ObjectId_of cart;
  cart_loop (product_map_of (List.filter (id_in ids) (db_product db)))
    cart [] Float.zero.

(** Lines 132 to 148 of [checkout], once [Order] has accepted its fields. *)
Definition order_of (payload : CheckoutRequest.t) (items : list OrderItem.t)
    (subtotal : float) : Order.t :=
  let shipping := shipping_for subtotal in
  Order.Build
    (CheckoutRequest.name payload)
    (CheckoutRequest.email payload)
    (CheckoutRequest.phone payload)
    (CheckoutRequest.address_line payload)
    (CheckoutRequest.city payload)
    (CheckoutRequest.pincode payload)
    (CheckoutRequest.payment_method payload)
    items
    (Float.round2 subtotal)
    (Float.round2 shipping)
    (Float.round2 (Float.add subtotal shipping))
    (status_for (CheckoutRequest.payment_method payload)).

(** The response to a checkout that stored [o] in [db]. *)
Definition result_of (db : Database) (o : Order.t) : CheckoutResult :=
  let order_id := str_of_ObjectId (next_id db) in
  {| order_id := order_id;
     total := Order.total o;
     status := Order.status o;
     payment :=
       if decide (Order.payment_method o = "card")
       then Some {| provider := "mock"; payment_status := "succeeded";
                    transaction_id := order_id |}
       else None |}.

(** [y] is a zero, a finite float or an infinity of sign [s]. *)
Definition signed (s : bool) (y : float) : Prop :=
  match y with
  | S754_zero s' | S754_finite s' _ _ | S754_infinity s' => s' = s
  | S754_nan => False
  end.

(** [y] is a finite non-zero float or an infinity of sign [s]. *)
Definition signed_nonzero (s : bool) (y : float) : Prop :=
  match y with
  | S754_finite s' _ _ | S754_infinity s' => s' = s
  | _ => False
  end.

(** The two products of [seed_products]. *)
Definition jaggery_500 : Product.t :=
  Product.Build "Jaggery Powder 500g"
    (Some "Pure, chemical-free jaggery powder. Perfect for tea, coffee and cooking.")
    (Float.decimal 249 2) "jaggery" true (Some "/jaggery-500.jpg")
    (Some "JAG-500") (Some 500%Z).

Definition jaggery_1000 : Product.t :=
  Product.Build "Jaggery Powder 1kg"
    (Some "Pure, chemical-free jaggery powder family pack.")
    (Float.decimal 449 2) "jaggery" true (Some "/jaggery-1000.jpg")
    (Some "JAG-1000") (Some 1000%Z).

(** ** Sample data *)

Module Sample.
Definition empty : Database :=
  {| db_product := []; db_order := []; db_inserted := 0 |}.

(** A store holding the two products [seed_products] describes, as its
    first two documents. *)
Definition seeded : Database :=
  {| db_product := [Build_Document (ObjectId_of_N 0) jaggery_500;
                    Build_Document (ObjectId_of_N 1) jaggery_1000];
     db_order := [];
     db_inserted := 2 |}.

Definition jag_500 : string := "000000000000000000000000".
Definition jag_1000 : string := "000000000000000000000001".

Definition item_500 (quantity : Z) : OrderItem.t :=
  OrderItem.Build jag_500 "Jaggery Powder 500g" (Float.decimal 249 2)
    quantity.
Definition item_1000 (quantity : Z) : OrderItem.t :=
  OrderItem.Build jag_1000 "Jaggery Powder 1kg" (Float.decimal 449 2)
    quantity.

Definition request (payment_method : string) (cart : list CartItem.t)
  : CheckoutRequest.t :=
  CheckoutRequest.Build "Asha" "asha@example.com" "5550100"
    "1 Mill Road" "Pune" "411001" payment_method cart.
End Sample.

(** A second catalog, for identifiers that have letters among their digits. *)

Module Shelf.
(** The same two products, as the eleventh and twelfth documents of a
    store. *)
Definition catalog : Database :=
  {| db_product := [Build_Document (ObjectId_of_N 10) jaggery_500;
                    Build_Document (ObjectId_of_N 11) jaggery_1000];
     db_order := [];
     db_inserted := 12 |}.
End Shelf.

(** * Facts *)

(** Closed goals are settled by running the model. *)
Ltac evaluate := vm_compute; reflexivity.

(** [line_resolves] for a concrete line of a concrete catalog. *)
Ltac line_resolves_by_evaluation :=
  eexists; split; [evaluate|]; split; [reflexivity|];
  split; [cbn; lia|]; eexists; evaluate.

(** ** Floats: signs survive rounding *)

Section FloatFacts.
Local Open Scope Z_scope.

Lemma shr_1_m mrs : 0 <= shr_m mrs -> shr_m (shr_1 mrs) = shr_m mrs / 2.
Proof.
  destruct mrs as [m r s]. simpl. intros Hm.
  rewrite <- Z.div2_div.
  destruct m as [|[p|p|]|p]; simpl; try reflexivity; lia.
Qed.

Lemma iter_shr_1_m p : forall mrs,
  0 <= shr_m mrs ->
  shr_m (SpecFloat.iter_pos shr_1 p mrs) = shr_m mrs / 2 ^ Zpos p.
Proof.
  induction p as [p IH|p IH|]; intros mrs Hm; simpl SpecFloat.iter_pos.
  - assert (H1 : 0 <= shr_m (shr_1 mrs)).
    { rewrite shr_1_m by lia. apply Z.div_pos; lia. }
    assert (H2 : 0 <= shr_m (SpecFloat.iter_pos shr_1 p (shr_1 mrs))).
    { rewrite IH by lia. apply Z.div_pos; lia. }
    rewrite IH, IH, shr_1_m by lia.
    rewrite !Z.div_div by lia. f_equal.
    rewrite Pos2Z.inj_xI, <- !Z.pow_add_r by lia.
    change 2 with (2 ^ 1) at 1. rewrite <- Z.pow_add_r by lia.
    f_equal. lia.
  - assert (H2 : 0 <= shr_m (SpecFloat.iter_pos shr_1 p mrs)).
    { rewrite IH by lia. apply Z.div_pos; lia. }
    rewrite IH, IH by lia.
    rewrite !Z.div_div by lia. f_equal.
    rewrite Pos2Z.inj_xO, <- Z.pow_add_r by lia. f_equal. lia.
  - rewrite shr_1_m by lia. reflexivity.
Qed.

Lemma digits2_pos_le m : 2 ^ (Zpos (digits2_pos m) - 1) <= Zpos m.
Proof.
  induction m as [m IH|m IH|]; simpl digits2_pos.
  - rewrite Pos2Z.inj_succ.
    replace (Z.succ (Zpos (digits2_pos m)) - 1)
      with (Z.succ (Zpos (digits2_pos m) - 1)) by lia.
    rewrite Z.pow_succ_r by lia. lia.
  - rewrite Pos2Z.inj_succ.
    replace (Z.succ (Zpos (digits2_pos m)) - 1)
      with (Z.succ (Zpos (digits2_pos m) - 1)) by lia.
    rewrite Z.pow_succ_r by lia. lia.
  - simpl. lia.
Qed.

(** The first argument is the mantissa before the shift. *)
Lemma shr_fexp_nonneg m e l :
  0 <= m -> 0 <= shr_m (fst (shr_fexp Float.prec Float.emax m e l)).
Proof.
  intros Hm. unfold shr_fexp, shr.
  assert (H0 : shr_m (shr_record_of_loc m l) = m)
    by (destruct l as [|[]]; reflexivity).
  destruct (fexp _ _ _ - e) as [|p|p]; simpl; try lia.
  rewrite iter_shr_1_m by lia. apply Z.div_pos; lia.
Qed.

Lemma shr_fexp_pos m e l :
  0 < m -> emin Float.prec Float.emax <= e ->
  0 < shr_m (fst (shr_fexp Float.prec Float.emax m e l))
  /\ emin Float.prec Float.emax
     <= snd (shr_fexp Float.prec Float.emax m e l).
Proof.
  intros Hm He. unfold shr_fexp, shr.
  assert (H0 : shr_m (shr_record_of_loc m l) = m)
    by (destruct l as [|[]]; reflexivity).
  destruct (fexp _ _ _ - e) as [|p|p] eqn:En; simpl; try lia.
  rewrite iter_shr_1_m by lia. rewrite H0.
  destruct m as [|m|m]; try lia.
  unfold fexp, emin, Float.prec, Float.emax in *. simpl Zdigits2 in En.
  pose proof (digits2_pos_le m) as Hd.
  assert (Hp : Zpos p = Zpos (digits2_pos m) - 53) by lia.
  split; [|lia].
  apply Z.div_str_pos. split; [lia|].
  eapply Z.le_trans; [|exact Hd].
  apply Z.pow_le_mono_r; lia.
Qed.

Lemma round_nearest_even_ge m l : m <= round_nearest_even m l.
Proof.
  unfold round_nearest_even.
  destruct l as [|[]]; try lia. destruct (Z.even m); lia.
Qed.

Lemma binary_round_aux_signed s mx ex lx :
  0 <= mx ->
  signed s (binary_round_aux Float.prec Float.emax s mx ex lx).
Proof.
  intros Hm. unfold binary_round_aux.
  pose proof (shr_fexp_nonneg mx ex lx Hm) as H1.
  destruct (shr_fexp Float.prec Float.emax mx ex lx) as [mrs' e'].
  simpl in H1.
  pose proof (round_nearest_even_ge (shr_m mrs') (loc_of_shr_record mrs'))
    as H2.
  pose proof (shr_fexp_nonneg
    (round_nearest_even (shr_m mrs') (loc_of_shr_record mrs')) e'
    loc_Exact ltac:(lia)) as H3.
  destruct (shr_fexp _ _ (round_nearest_even _ _) e' loc_Exact)
    as [mrs'' e''].
  simpl in H3.
  destruct (shr_m mrs'') as [|m|m]; simpl; try lia; try reflexivity.
  destruct (e'' <=? _); reflexivity.
Qed.

Lemma binary_round_aux_signed_nonzero s mx ex lx :
  0 < mx -> emin Float.prec Float.emax <= ex ->
  signed_nonzero s (binary_round_aux Float.prec Float.emax s mx ex lx).
Proof.
  intros Hm He. unfold binary_round_aux.
  pose proof (shr_fexp_pos mx ex lx Hm He) as [H1 H1'].
  destruct (shr_fexp Float.prec Float.emax mx ex lx) as [mrs' e'].
  simpl in H1, H1'.
  pose proof (round_nearest_even_ge (shr_m mrs') (loc_of_shr_record mrs'))
    as H2.
  pose proof (shr_fexp_pos
    (round_nearest_even (shr_m mrs') (loc_of_shr_record mrs')) e'
    loc_Exact ltac:(lia) H1') as [H3 _].
  destruct (shr_fexp _ _ (round_nearest_even _ _) e' loc_Exact)
    as [mrs'' e''].
  simpl in H3.
  destruct (shr_m mrs'') as [|m|m]; simpl; try lia.
  destruct (e'' <=? _); reflexivity.
Qed.

Lemma of_Z_pos_signed_nonzero n :
  1 <= n -> signed_nonzero false (Float.of_Z n).
Proof.
  intros Hn. destruct n as [|m|m]; try lia.
  unfold Float.of_Z, binary_normalize, binary_round.
  destruct (shl_align m 0 _) as [mz ez] eqn:Ea.
  apply binary_round_aux_signed_nonzero; [lia|].
  unfold shl_align in Ea.
  unfold fexp, emin, Float.prec, Float.emax in *.
  destruct (Z.max _ _ - 0) eqn:Ed; inversion Ea; subst; lia.
Qed.

Lemma of_int_pos n y :
  1 <= n -> Float.of_int n = Some y ->
  exists m e, y = S754_finite false m e.
Proof.
  intros Hn. unfold Float.of_int.
  pose proof (of_Z_pos_signed_nonzero n Hn) as Hs.
  destruct (Float.of_Z n) as [s|s|
    |s m e]; simpl in Hs; try contradiction; try discriminate.
  intros [= <-]. subst s. eauto.
Qed.

Lemma signed_false_nonneg y : signed false y -> Float.nonneg y.
Proof. destruct y; simpl; auto. Qed.

Lemma nonneg_ge_zero y : Float.nonneg y <-> Float.ge y Float.zero = true.
Proof.
  destruct y as [s|s| |s m e]; simpl; unfold Float.ge, SFleb; simpl.
  - tauto.
  - destruct s; split; intros; congruence.
  - split; [tauto|discriminate].
  - destruct s; split; intros; congruence.
Qed.

Lemma mul_nonneg x m e :
  Float.nonneg x -> Float.nonneg (Float.mul x (S754_finite false m e)).
Proof.
  destruct x as [s|s| |s mx ex]; simpl; intros H; try exact I; subst;
    try reflexivity; try contradiction.
  apply signed_false_nonneg. apply binary_round_aux_signed. lia.
Qed.

Lemma add_nonneg x y :
  Float.nonneg x -> Float.nonneg y -> Float.nonneg (Float.add x y).
Proof.
  destruct x as [sx|sx| |sx mx ex], y as [sy|sy| |sy my ey]; simpl;
    intros Hx Hy; subst; try exact I; try reflexivity; try contradiction.
  - destruct sx, sy; exact I.
  - unfold binary_normalize. simpl.
    apply signed_false_nonneg. unfold binary_round.
    destruct (shl_align _ _ _). apply binary_round_aux_signed. lia.
Qed.

Lemma round2_nonneg x : Float.nonneg x -> Float.nonneg (Float.round2 x).
Proof.
  destruct x as [s|s| |s m e]; simpl; intros H; try assumption. subst.
  match goal with |- context [match ?n with Zpos _ => _ | _ => _ end] =>
    destruct n as [|k|k] end; try exact I.
  unfold Float.div, SFdiv.
  destruct (SFdiv_core_binary _ _ _ _ _ _) as [[mz ez] lz] eqn:Ed.
  apply signed_false_nonneg. apply binary_round_aux_signed.
  unfold SFdiv_core_binary in Ed.
  match type of Ed with context [Z.div_eucl ?a ?b] =>
    pose proof (Z_div_mod a b ltac:(lia)) as Hdm;
    assert (Ha : 0 <= a) by
      (destruct (_ - _ - _); [lia | apply Z.shiftl_nonneg; lia | lia]);
    destruct (Z.div_eucl a b) as [q r] end.
  inversion Ed; subst. nia.
Qed.
End FloatFacts.

(** ** Identifiers and the product map *)

Section Bson.
Lemma hex_byte b :
  hex_value (hex_digit (Byte.to_N b / 16)) = Some (Byte.to_N b / 16)%N
  /\ hex_value (hex_digit (Byte.to_N b mod 16)) = Some (Byte.to_N b mod 16)%N
  /\ Byte.of_N (16 * (Byte.to_N b / 16) + Byte.to_N b mod 16) = Some b.
Proof. destruct b; repeat split; reflexivity. Qed.

Lemma fromhex_hexlify bs : fromhex (hexlify bs) = Some bs.
Proof.
  induction bs as [|b bs IH]; [reflexivity|].
  destruct (hex_byte b) as (H1 & H2 & H3).
  cbn [hexlify fromhex]. rewrite H1, H2, IH, H3. reflexivity.
Qed.

Lemma ObjectId_of_str_str o : ObjectId_of_str (str_of_ObjectId o) = Some o.
Proof.
  unfold ObjectId_of_str, str_of_ObjectId. rewrite fromhex_hexlify.
  destruct o. reflexivity.
Qed.

Lemma hex_value_plain c h :
  hex_value c = Some h -> is_space c = false /\ is_continuation c = false.
Proof.
  destruct c as [[] [] [] [] [] [] [] []]; intros H; try discriminate H;
    split; reflexivity.
Qed.

(** On pairs of hexadecimal digits [bytes.fromhex] has nothing to skip, and
    every byte of the text is a character. *)
Lemma fromhex_plain bs : forall s,
  fromhex s = Some bs ->
  bytes_fromhex s = Some bs /\ str_len s = 2 * length bs.
Proof.
  induction bs as [|b bs IH]; intros s H.
  - destruct s as [|c1 [|c2 s]]; [split; reflexivity|discriminate|].
    cbn [fromhex] in H.
    destruct (hex_value c1), (hex_value c2), (fromhex s);
      try discriminate. destruct (Byte.of_N _); discriminate.
  - destruct s as [|c1 [|c2 s]]; try discriminate. cbn [fromhex] in H.
    destruct (hex_value c1) as [h|] eqn:E1; [|discriminate].
    destruct (hex_value c2) as [l|] eqn:E2; [|discriminate].
    destruct (fromhex s) as [bs'|] eqn:Es; [|discriminate].
    destruct (Byte.of_N (16 * h + l)) as [b'|] eqn:Eb; [|discriminate].
    injection H as -> ->.
    destruct (hex_value_plain _ _ E1) as [S1 C1].
    destruct (hex_value_plain _ _ E2) as [S2 C2].
    destruct (IH s Es) as [IH1 IH2].
    cbn [bytes_fromhex str_len]. rewrite S1, C1, C2, E1, E2, IH1, Eb, IH2.
    split; [reflexivity|]. cbn [length]. lia.
Qed.

(** A string of 24 hexadecimal digits is accepted by [ObjectId], which then
    holds the bytes it writes. *)
Lemma ObjectId_binary_of_str s o :
  ObjectId_of_str s = Some o -> ObjectId_binary s = Some (oid_bytes o).
Proof.
  unfold ObjectId_of_str, ObjectId_binary. intros H.
  destruct (fromhex s) as [bs|] eqn:E; [|discriminate].
  destruct (fromhex_plain bs s E) as [-> ->].
  do 12 (destruct bs as [|? bs]; [discriminate|]).
  destruct bs; [|discriminate]. injection H as <-. reflexivity.
Qed.

Lemma ObjectId_binary_str o :
  ObjectId_binary (str_of_ObjectId o) = Some (oid_bytes o).
Proof. apply ObjectId_binary_of_str, ObjectId_of_str_str. Qed.

Lemma oid_bytes_inj o1 o2 : oid_bytes o1 = oid_bytes o2 -> o1 = o2.
Proof. destruct o1, o2. intros [=]. congruence. Qed.

(** What [bytes.fromhex] accepts is hexadecimal digits and ASCII
    whitespace: two characters for each byte, and the skipped ones. Without
    a skipped one it is pairs of digits only. *)
Lemma bytes_fromhex_length n : forall s bs,
  String.length s <= n ->
  bytes_fromhex s = Some bs ->
  2 * length bs <= str_len s
  /\ (2 * length bs = str_len s -> fromhex s = Some bs).
Proof.
  induction n as [|n IH]; intros s bs Hn H.
  - destruct s; [|cbn in Hn; lia]. injection H as <-. split; reflexivity.
  - destruct s as [|c1 s1]; [injection H as <-; split; reflexivity|].
    cbn [bytes_fromhex] in H. cbn [String.length] in Hn.
    destruct (is_space c1) eqn:Es.
    + assert (Ec : is_continuation c1 = false).
      { destruct c1 as [[] [] [] [] [] [] [] []]; try discriminate Es;
          reflexivity. }
      destruct (IH s1 bs ltac:(lia) H) as [Hle _].
      cbn [str_len]. rewrite Ec. split; lia.
    + destruct s1 as [|c2 s2]; [discriminate|].
      destruct (hex_value c1) as [h|] eqn:E1; [|discriminate].
      destruct (hex_value c2) as [l|] eqn:E2; [|discriminate].
      destruct (bytes_fromhex s2) as [bs'|] eqn:E; [|discriminate].
      destruct (Byte.of_N (16 * h + l)) as [b|] eqn:Eb; [|discriminate].
      injection H as <-. cbn [String.length] in Hn.
      destruct (IH s2 bs' ltac:(lia) E) as [Hle Heq].
      destruct (hex_value_plain _ _ E1) as [_ Ec1].
      destruct (hex_value_plain _ _ E2) as [_ Ec2].
      cbn [str_len length fromhex]. rewrite Ec1, Ec2, E1, E2.
      split; [lia|]. intros H2. rewrite Heq by lia. rewrite Eb. reflexivity.
Qed.

(** The bytes [ObjectId] keeps of a string are twelve exactly when the
    string is 24 hexadecimal digits, and fewer otherwise. *)
Lemma ObjectId_binary_length s bs :
  ObjectId_binary s = Some bs ->
  length bs <= 12
  /\ (length bs = 12 -> exists o, ObjectId_of_str s = Some o
                                  /\ bs = oid_bytes o).
Proof.
  unfold ObjectId_binary. intros H.
  destruct (Nat.eqb (str_len s) 24) eqn:E; [|discriminate].
  apply Nat.eqb_eq in E.
  destruct (bytes_fromhex_length _ s bs (le_n _) H) as [Hle Heq].
  split; [lia|]. intros Hlen.
  unfold ObjectId_of_str. rewrite Heq by lia.
  do 12 (destruct bs as [|? bs]; [discriminate|]).
  destruct bs; [|discriminate]. eexists. split; reflexivity.
Qed.
End Bson.

Section ProductMap.
Implicit Types (products : list (Document Product.t)) (pid : string).

Lemma product_map_of_lookup products pid :
  product_map_of products !! pid
  = last (List.filter
            (fun d => String.eqb (str_of_ObjectId (_id d)) pid) products).
Proof.
  unfold product_map_of.
  induction products as [|p products IH] using rev_ind; [reflexivity|].
  rewrite foldl_snoc, List.filter_app. simpl.
  destruct (String.eqb_spec (str_of_ObjectId (_id p)) pid) as [E|E].
  - rewrite E, lookup_insert_eq, last_snoc. reflexivity.
  - rewrite lookup_insert_ne, app_nil_r by assumption. exact IH.
Qed.

Lemma filter_id_in ids o pid products :
  ObjectId_binary pid = Some o -> o ∈ ids ->
  List.filter (fun d => String.eqb (str_of_ObjectId (_id d)) pid)
    (List.filter (id_in ids) products)
  = List.filter (fun d => String.eqb (str_of_ObjectId (_id d)) pid)
      products.
Proof.
  intros Ho Hin. induction products as [|p products IH]; [reflexivity|].
  simpl. destruct (String.eqb_spec (str_of_ObjectId (_id p)) pid) as [E|E].
  - assert (Hid : oid_bytes (_id p) = o).
    { pose proof (ObjectId_binary_str (_id p)) as H. congruence. }
    unfold id_in at 1.
    rewrite bool_decide_eq_true_2 by (rewrite Hid; exact Hin).
    simpl. rewrite (proj2 (String.eqb_eq _ _) E), IH. reflexivity.
  - destruct (id_in ids p); simpl; [|exact IH].
    rewrite (proj2 (String.eqb_neq _ _) E). exact IH.
Qed.
End ProductMap.

(** ** The cart loop *)

Section CartLoop.
Variable product_map : gmap string (Document Product.t).
Let lookup := fun k : string => product_map !! k.

Lemma of_int_of_Z n y : Float.of_int n = Some y -> y = Float.of_Z n.
Proof.
  unfold Float.of_int. destruct (Float.of_Z n); congruence.
Qed.

Lemma OrderItem_new_Ok product_id title price quantity item :
  OrderItem.new product_id title price quantity = Ok item ->
  item = OrderItem.Build product_id title price quantity
  /\ Float.nonneg price /\ (1 <= quantity)%Z.
Proof.
  unfold OrderItem.new, check.
  destruct (Float.ge price Float.zero) eqn:Ep;
    destruct (1 <=? quantity)%Z eqn:Eq; simpl; try discriminate.
  intros [= <-]. rewrite nonneg_ge_zero. split; [reflexivity|].
  split; [assumption|lia].
Qed.

Lemma OrderItem_new_valid product_id title price quantity :
  Float.nonneg price -> (1 <= quantity)%Z ->
  OrderItem.new product_id title price quantity
  = Ok (OrderItem.Build product_id title price quantity).
Proof.
  intros Hp Hq. unfold OrderItem.new, check.
  rewrite (proj1 (nonneg_ge_zero _) Hp).
  rewrite (proj2 (Z.leb_le _ _) Hq). reflexivity.
Qed.

Lemma OrderItem_new_Err product_id title price quantity e :
  OrderItem.new product_id title price quantity = Err e ->
  exists fields, e = ValidationError "OrderItem" fields.
Proof.
  unfold OrderItem.new.
  destruct (_ ++ _); [discriminate|]. intros [= <-]. eauto.
Qed.

Lemma cart_loop_Ok cart : forall items subtotal items' subtotal',
  cart_loop product_map cart items subtotal = Ok (items', subtotal') ->
  exists new,
    items' = items ++ new
    /\ Forall2 (snapshot_of lookup) cart new
    /\ Forall (line_resolves lookup) cart
    /\ subtotal' = foldl Float.add subtotal (line_total <$> new).
Proof.
  induction cart as [|ci cart IH]; intros items subtotal items' subtotal'.
  - intros [= <- <-]. exists []. rewrite app_nil_r. repeat split; constructor.
  - cbn [cart_loop].
    destruct (product_map !! CartItem.product_id ci) as [prod|] eqn:Eprod;
      [|discriminate].
    destruct (Float.of_int (CartItem.quantity ci)) as [q|] eqn:Eq;
      [|discriminate].
    destruct (OrderItem.new _ _ _ _) as [item|e] eqn:Eitem;
      [|discriminate].
    cbn. intros H. apply IH in H as (new & -> & Hnew & Hres & ->).
    apply OrderItem_new_Ok in Eitem as (-> & Hp & Hq).
    exists (snapshot prod ci :: new). rewrite <- app_assoc.
    split; [reflexivity|]. split; [|split].
    + constructor; [|assumption]. exists prod. auto.
    + constructor; [|assumption]. exists prod.
      repeat split; eauto.
    + cbn. unfold line_total at 2. cbn.
      rewrite (of_int_of_Z _ _ Eq). reflexivity.
Qed.

Lemma cart_loop_resolves cart : forall items subtotal,
  Forall (line_resolves lookup) cart ->
  exists items' subtotal',
    cart_loop product_map cart items subtotal = Ok (items', subtotal').
Proof.
  induction cart as [|ci cart IH]; intros items subtotal Hall.
  - cbn. eauto.
  - inversion Hall as [|? ? (prod & Eprod & Hp & Hq & [q Eq]) Hrest]; subst.
    cbn [cart_loop]. unfold lookup in Eprod. rewrite Eprod, Eq.
    rewrite OrderItem_new_valid by assumption. cbn. apply IH, Hrest.
Qed.

(** An exception of the loop is the 404 of a line whose product is not in
    the map, an OverflowError or an OrderItem ValidationError. *)
Lemma cart_loop_Err cart : forall items subtotal e,
  cart_loop product_map cart items subtotal = Err e ->
  (exists ci, ci ∈ cart /\ lookup (CartItem.product_id ci) = None
              /\ e = not_found (CartItem.product_id ci))
  \/ e = OverflowError
  \/ exists fields, e = ValidationError "OrderItem" fields.
Proof.
  induction cart as [|ci cart IH]; intros items subtotal e;
    [discriminate|].
  cbn [cart_loop].
  destruct (product_map !! CartItem.product_id ci) as [prod|] eqn:Eprod.
  - destruct (Float.of_int (CartItem.quantity ci)) as [q|] eqn:Eq.
    + destruct (OrderItem.new _ _ _ _) as [item|e'] eqn:Eitem; cbn.
      * intros H. apply IH in H as [(ci' & Hin & Hnone & ->)|H]; [|auto].
        left. exists ci'. split; [right; assumption|auto].
      * intros [= <-]. right. right. eapply OrderItem_new_Err, Eitem.
    + intros [= <-]. auto.
  - intros [= <-]. left. exists ci. split; [left|auto].
Qed.

Lemma cart_loop_missing before ci after : forall items subtotal,
  Forall (line_resolves lookup) before ->
  lookup (CartItem.product_id ci) = None ->
  cart_loop product_map (before ++ ci :: after) items subtotal
  = Err (not_found (CartItem.product_id ci)).
Proof.
  induction before as [|c before IH]; intros items subtotal Hall Hnone.
  - cbn. unfold lookup in Hnone. rewrite Hnone. reflexivity.
  - inversion Hall as [|? ? (prod & Eprod & Hp & Hq & [q Eq]) Hrest]; subst.
    cbn [app cart_loop]. unfold lookup in Eprod. rewrite Eprod, Eq.
    rewrite OrderItem_new_valid by assumption. cbn. apply IH; assumption.
Qed.

Lemma cart_loop_not_Ok cart items subtotal :
  ~ Forall (line_resolves lookup) cart ->
  exists e, cart_loop product_map cart items subtotal = Err e.
Proof.
  intros Hnot.
  destruct (cart_loop product_map cart items subtotal) as [[i s]|e] eqn:E;
    [|eauto].
  apply cart_loop_Ok in E as (new & _ & _ & Hres & _). contradiction.
Qed.
End CartLoop.

(** ** Resolving a cart against the catalog *)

Section Checkout.
Implicit Types (payload : CheckoutRequest.t) (db : Database)
  (cart : list CartItem.t).


Lemma mapM_result_cons {A B} (f : A -> result B) x l :
  mapM f (x :: l)
  = match f x with
    | Ok y => match mapM f l with
              | Ok k => Ok (y :: k)
              | Err e => Err e
              end
    | Err e => Err e
    end.
Proof. reflexivity. Qed.

Lemma mapM_ObjectId_cons ci cart :
  mapM ObjectId_of (ci :: cart)
  = match ObjectId_binary (CartItem.product_id ci) with
    | Some o =>
        match mapM ObjectId_of cart with
        | Ok ids => Ok (o :: ids)
        | Err e => Err e
        end
    | None => Err (InvalidId (CartItem.product_id ci))
    end.
Proof.
  rewrite mapM_result_cons. unfold ObjectId_of at 1, ObjectId_new.
  destruct (ObjectId_binary _); reflexivity.
Qed.

Lemma mapM_ObjectId_Ok cart ids :
  mapM ObjectId_of cart = Ok ids ->
  Forall (fun ci => exists o,
    ObjectId_binary (CartItem.product_id ci) = Some o /\ o ∈ ids) cart.
Proof.
  revert ids. induction cart as [|ci cart IH]; intros ids H; [constructor|].
  rewrite mapM_ObjectId_cons in H.
  destruct (ObjectId_binary (CartItem.product_id ci)) as [o|] eqn:Eo;
    [|discriminate].
  destruct (mapM ObjectId_of cart) as [ids'|] eqn:Eids; [|discriminate].
  injection H as <-. constructor.
  - exists o. split; [exact Eo|left].
  - eapply Forall_impl; [apply IH; reflexivity|].
    intros c (o' & ? & ?). exists o'. split; [assumption|right; assumption].
Qed.

Lemma mapM_ObjectId_Err cart e :
  mapM ObjectId_of cart = Err e ->
  exists ci, ci ∈ cart
    /\ ObjectId_binary (CartItem.product_id ci) = None
    /\ e = InvalidId (CartItem.product_id ci).
Proof.
  induction cart as [|ci cart IH]; intros H; [discriminate|].
  rewrite mapM_ObjectId_cons in H.
  destruct (ObjectId_binary (CartItem.product_id ci)) as [o|] eqn:Eo.
  - destruct (mapM ObjectId_of cart) as [ids'|e'] eqn:Eids;
      [discriminate|].
    injection H as <-.
    destruct IH as (ci' & Hin & Hnone & ->); [reflexivity|].
    exists ci'. split; [right; assumption|auto].
  - injection H as <-. exists ci. split; [left|auto].
Qed.

Lemma mapM_ObjectId_wf cart :
  Forall (fun ci => is_Some (ObjectId_binary (CartItem.product_id ci))) cart ->
  exists ids, mapM ObjectId_of cart = Ok ids.
Proof.
  intros Hall.
  destruct (mapM ObjectId_of cart) as [ids|e] eqn:E; [eauto|].
  apply mapM_ObjectId_Err in E as (ci & Hin & Hnone & _).
  rewrite Forall_forall in Hall. apply Hall in Hin as [o Ho]. congruence.
Qed.


Lemma cart_loop_ext pm pm' cart : forall items subtotal,
  Forall (fun ci => pm !! CartItem.product_id ci
                    = pm' !! CartItem.product_id ci) cart ->
  cart_loop pm cart items subtotal = cart_loop pm' cart items subtotal.
Proof.
  induction cart as [|ci cart IH]; intros items subtotal Hall;
    [reflexivity|].
  inversion Hall as [|? ? E Hrest]; subst. cbn [cart_loop]. rewrite E.
  destruct (pm' !! _); [|reflexivity].
  destruct (Float.of_int _); [|reflexivity].
  destruct (OrderItem.new _ _ _ _); cbn; [apply IH, Hrest|reflexivity].
Qed.

Lemma catalog_get_lookup db pid :
  product_map_of (db_product db) !! pid = catalog_get db pid.
Proof. apply product_map_of_lookup. Qed.

(** Once every identifier of the cart has been converted, the loop sees
    the catalog itself. *)
Lemma resolve_cart_catalog cart db ids :
  mapM ObjectId_of cart = Ok ids ->
  resolve_cart cart db
  = cart_loop (product_map_of (db_product db)) cart [] Float.zero.
Proof.
  intros Hids. unfold resolve_cart. rewrite Hids. cbn.
  apply cart_loop_ext.
  eapply Forall_impl; [apply mapM_ObjectId_Ok, Hids|].
  intros ci (o & Ho & Hin). cbn.
  rewrite !product_map_of_lookup.
  erewrite filter_id_in by eassumption. reflexivity.
Qed.

Lemma resolve_cart_invalid cart db e :
  mapM ObjectId_of cart = Err e -> resolve_cart cart db = Err e.
Proof.
  intros Hids. unfold resolve_cart. rewrite Hids.
  reflexivity.
Qed.

Lemma shipping_for_cases subtotal :
  shipping_for subtotal = Float.zero \/ shipping_for subtotal = Float.one.
Proof. unfold shipping_for. destruct (Float.ge _ _); auto. Qed.

Lemma round2_shipping_for subtotal :
  Float.round2 (shipping_for subtotal) = shipping_for subtotal.
Proof.
  destruct (shipping_for_cases subtotal) as [-> | ->]; reflexivity.
Qed.

Lemma shipping_for_nonneg subtotal : Float.nonneg (shipping_for subtotal).
Proof.
  destruct (shipping_for_cases subtotal) as [-> | ->]; [exact I|reflexivity].
Qed.

Lemma fold_add_nonneg xs : forall acc,
  Float.nonneg acc -> Forall Float.nonneg xs ->
  Float.nonneg (foldl Float.add acc xs).
Proof.
  induction xs as [|x xs IH]; intros acc Hacc Hall; [assumption|].
  inversion Hall; subst. cbn. apply IH; [apply add_nonneg|]; assumption.
Qed.

Lemma resolve_cart_Ok cart db items subtotal :
  resolve_cart cart db = Ok (items, subtotal) ->
  Forall (fun ci => is_Some (ObjectId_binary (CartItem.product_id ci))) cart
  /\ Forall2 (snapshot_of (catalog_get db)) cart items
  /\ Forall (line_resolves (catalog_get db)) cart
  /\ subtotal = fsum (line_total <$> items).
Proof.
  intros H.
  destruct (mapM ObjectId_of cart) as [ids|e] eqn:Eids.
  - rewrite (resolve_cart_catalog _ _ _ Eids) in H.
    apply cart_loop_Ok in H as (new & -> & Hnew & Hres & ->).
    split; [|split; [|split]].
    + eapply Forall_impl; [apply mapM_ObjectId_Ok, Eids|].
      intros ci (o & -> & _). eauto.
    + eapply Forall2_impl; [exact Hnew|].
      intros ci item (prod & Hprod & ->). exists prod.
      rewrite <- catalog_get_lookup. auto.
    + eapply Forall_impl; [exact Hres|].
      intros ci (prod & Hprod & Hrest). exists prod.
      rewrite <- catalog_get_lookup. auto.
    + reflexivity.
  - rewrite (resolve_cart_invalid _ _ _ Eids) in H. discriminate.
Qed.
End Checkout.

(** ** Running checkout *)

Section CheckoutRun.
Implicit Types (payload : CheckoutRequest.t) (db : Database)
  (cart : list CartItem.t).

Lemma line_total_nonneg lookup ci item :
  snapshot_of lookup ci item -> line_resolves lookup ci ->
  Float.nonneg (line_total item).
Proof.
  intros (prod & Hprod & ->) (prod' & Hprod' & Hp & Hq & [q Eq]).
  assert (prod' = prod) as -> by congruence.
  unfold line_total, snapshot. cbn.
  destruct (of_int_pos _ _ Hq Eq) as (m & e & ->).
  rewrite <- (of_int_of_Z _ _ Eq). apply mul_nonneg, Hp.
Qed.

Lemma resolve_cart_nonneg cart db items subtotal :
  resolve_cart cart db = Ok (items, subtotal) -> Float.nonneg subtotal.
Proof.
  intros H. apply resolve_cart_Ok in H as (_ & Hsnap & Hres & ->).
  apply fold_add_nonneg; [exact I|].
  induction Hsnap as [|ci item cart items Hci _ IH]; [constructor|].
  inversion Hres; subst. cbn. constructor; [|apply IH; assumption].
  eapply line_total_nonneg; eassumption.
Qed.

Lemma Order_new_valid customer_name email phone address_line city pincode
    payment_method items subtotal shipping total status :
  Float.nonneg subtotal -> Float.nonneg shipping -> Float.nonneg total ->
  Order.new customer_name email phone address_line city pincode
    payment_method items subtotal shipping total status
  = Ok (Order.Build customer_name email phone address_line city pincode
          payment_method items subtotal shipping total status).
Proof.
  intros H1 H2 H3. unfold Order.new, check.
  rewrite (proj1 (nonneg_ge_zero _) H1), (proj1 (nonneg_ge_zero _) H2),
    (proj1 (nonneg_ge_zero _) H3).
  reflexivity.
Qed.

Lemma result_bind_Ok {A B} (a : A) (f : A -> result B) :
  (Ok a ≫= f) = f a.
Proof. reflexivity. Qed.

Lemma bind_pure_Ok {A B} (a : A) (f : A -> handler B) db :
  (pure (Ok a) ≫= f) db = f a db.
Proof. reflexivity. Qed.

Lemma bind_pure_Err {A B} e (f : A -> handler B) db :
  (pure (Err e) ≫= f) db = (Err e, db).
Proof. reflexivity. Qed.

Lemma bind_find_product {B} query
    (f : list (Document Product.t) -> handler B) db :
  (find_product query ≫= f) db = f (List.filter query (db_product db)) db.
Proof. reflexivity. Qed.

Lemma bind_create_order {B} o (f : string -> handler B) db :
  (create_document Collection.order o ≫= f) db
  = f (str_of_ObjectId (next_id db)) (insert_order db o).
Proof. reflexivity. Qed.

Lemma checkout_body_resolve payload db :
  checkout_body payload db
  = match resolve_cart (CheckoutRequest.cart payload) db with
    | Ok (items, subtotal) =>
        let shipping := shipping_for subtotal in
        match Order.new
          (CheckoutRequest.name payload)
          (CheckoutRequest.email payload)
          (CheckoutRequest.phone payload)
          (CheckoutRequest.address_line payload)
          (CheckoutRequest.city payload)
          (CheckoutRequest.pincode payload)
          (CheckoutRequest.payment_method payload)
          items
          (Float.round2 subtotal)
          (Float.round2 shipping)
          (Float.round2 (Float.add subtotal shipping))
          (status_for (CheckoutRequest.payment_method payload)) with
        | Ok o => (Ok (result_of db o), insert_order db o)
        | Err e => (Err e, db)
        end
    | Err e => (Err e, db)
    end.
Proof.
  unfold checkout_body, resolve_cart.
  change (fun ci => ObjectId_new (CartItem.product_id ci)) with ObjectId_of.
  destruct (mapM ObjectId_of (CheckoutRequest.cart payload)) as [ids|e];
    [rewrite bind_pure_Ok|apply bind_pure_Err].
  rewrite bind_find_product, result_bind_Ok.
  destruct (cart_loop _ _ _ _) as [[items subtotal]|e];
    [rewrite bind_pure_Ok|apply bind_pure_Err].
  cbn zeta.
  destruct (Order.new _ _ _ _ _ _ _ _ _ _ _ _) as [o|e] eqn:Eo;
    [rewrite bind_pure_Ok|apply bind_pure_Err].
  rewrite bind_create_order. unfold result_of.
  assert (Hpm : Order.payment_method o
                = CheckoutRequest.payment_method payload).
  { unfold Order.new in Eo. destruct (_ ++ _); [|discriminate].
    injection Eo as <-. reflexivity. }
  rewrite Hpm. reflexivity.
Qed.

(** A cart that resolves is checked out: the order is built, stored and
    reported. *)
Lemma checkout_resolved payload db items subtotal :
  resolve_cart (CheckoutRequest.cart payload) db = Ok (items, subtotal) ->
  checkout payload db
  = (Ok (result_of db (order_of payload items subtotal)),
     insert_order db (order_of payload items subtotal)).
Proof.
  intros H. unfold checkout. rewrite checkout_body_resolve, H. cbn zeta.
  pose proof (resolve_cart_nonneg _ _ _ _ H) as Hs.
  rewrite Order_new_valid; [reflexivity| | |];
    apply round2_nonneg; auto using shipping_for_nonneg, add_nonneg.
Qed.

(** A cart that does not resolve leaves the database alone. *)
Lemma checkout_unresolved payload db e :
  resolve_cart (CheckoutRequest.cart payload) db = Err e ->
  checkout payload db = (except_HTTPException_Exception (Err e), db).
Proof.
  intros H. unfold checkout. rewrite checkout_body_resolve, H. reflexivity.
Qed.

Lemma checkout_Ok payload db r db' :
  checkout payload db = (Ok r, db') ->
  exists items subtotal,
    resolve_cart (CheckoutRequest.cart payload) db = Ok (items, subtotal)
    /\ r = result_of db (order_of payload items subtotal)
    /\ db' = insert_order db (order_of payload items subtotal).
Proof.
  intros H.
  destruct (resolve_cart (CheckoutRequest.cart payload) db)
    as [[items subtotal]|e] eqn:E.
  - rewrite (checkout_resolved _ _ _ _ E) in H. injection H as <- <-.
    eauto.
  - rewrite (checkout_unresolved _ _ _ E) in H.
    destruct e; discriminate.
Qed.
End CheckoutRun.

(** ** What makes a cart resolve, and what stops it *)

Section Resolve.
Implicit Types (payload : CheckoutRequest.t) (db : Database)
  (cart : list CartItem.t).

Lemma catalog_get_Some db pid d :
  catalog_get db pid = Some d ->
  d ∈ db_product db /\ str_of_ObjectId (_id d) = pid.
Proof.
  unfold catalog_get. intros H. apply last_Some in H as [l Hl].
  assert (Hin : In d (List.filter
    (fun d => String.eqb (str_of_ObjectId (_id d)) pid) (db_product db))).
  { rewrite Hl. apply in_or_app. right. left. reflexivity. }
  apply List.filter_In in Hin as [Hin Heq].
  split; [apply list_elem_of_In, Hin|apply String.eqb_eq, Heq].
Qed.

Lemma catalog_get_wf db pid d :
  catalog_get db pid = Some d -> ObjectId_of_str pid = Some (_id d).
Proof.
  intros H. apply catalog_get_Some in H as [_ <-].
  apply ObjectId_of_str_str.
Qed.

Lemma catalog_get_binary db pid d :
  catalog_get db pid = Some d ->
  ObjectId_binary pid = Some (oid_bytes (_id d)).
Proof.
  intros H. apply ObjectId_binary_of_str, (catalog_get_wf _ _ _ H).
Qed.

(** A string of 24 hexadecimal digits is one [ObjectId] accepts. *)
Lemma hex_digits_accepted cart :
  Forall (fun c => is_Some (ObjectId_of_str (CartItem.product_id c))) cart ->
  Forall (fun c => is_Some (ObjectId_binary (CartItem.product_id c))) cart.
Proof.
  intros H. eapply Forall_impl; [exact H|]. intros c [o Ho].
  rewrite (ObjectId_binary_of_str _ _ Ho). eauto.
Qed.

Lemma lookup_catalog_get db (P : (string -> option (Document Product.t))
                                 -> CartItem.t -> Prop) cart :
  (forall f g ci, (forall k, f k = g k) -> P f ci -> P g ci) ->
  Forall (P (catalog_get db)) cart ->
  Forall (P (fun k => product_map_of (db_product db) !! k)) cart.
Proof.
  intros Hext H. eapply Forall_impl; [exact H|].
  intros ci. apply Hext. intros k. symmetry. apply catalog_get_lookup.
Qed.

Lemma line_resolves_ext f g ci :
  (forall k, f k = g k) -> line_resolves f ci -> line_resolves g ci.
Proof.
  intros E (prod & H & Hrest). exists prod. rewrite <- E. auto.
Qed.

(** Lines that all resolve against the catalog make the cart resolve. *)
Lemma resolve_cart_resolves cart db :
  Forall (line_resolves (catalog_get db)) cart ->
  exists items subtotal, resolve_cart cart db = Ok (items, subtotal).
Proof.
  intros Hall.
  destruct (mapM_ObjectId_wf cart) as [ids Hids].
  { eapply Forall_impl; [exact Hall|].
    intros ci (prod & Hprod & _). rewrite (catalog_get_binary _ _ _ Hprod).
    eauto. }
  rewrite (resolve_cart_catalog _ _ _ Hids).
  apply cart_loop_resolves.
  apply (lookup_catalog_get db line_resolves); [|exact Hall].
  apply line_resolves_ext.
Qed.

(** What a cart that does not resolve raises. *)
Lemma resolve_cart_Err cart db e :
  resolve_cart cart db = Err e ->
  (exists ci, ci ∈ cart
     /\ ObjectId_binary (CartItem.product_id ci) = None
     /\ e = InvalidId (CartItem.product_id ci))
  \/ (exists ci, ci ∈ cart
     /\ catalog_get db (CartItem.product_id ci) = None
     /\ e = not_found (CartItem.product_id ci))
  \/ e = OverflowError
  \/ exists fields, e = ValidationError "OrderItem" fields.
Proof.
  intros H. destruct (mapM ObjectId_of cart) as [ids|e'] eqn:Eids.
  - rewrite (resolve_cart_catalog _ _ _ Eids) in H.
    apply cart_loop_Err in H as [(ci & Hin & Hnone & ->)|H]; [|auto].
    right. left. exists ci. rewrite <- catalog_get_lookup. auto.
  - rewrite (resolve_cart_invalid _ _ _ Eids) in H. injection H as <-.
    left. apply mapM_ObjectId_Err, Eids.
Qed.

Lemma resolve_cart_missing before ci after db :
  Forall (fun c => is_Some (ObjectId_binary (CartItem.product_id c)))
    (before ++ ci :: after) ->
  Forall (line_resolves (catalog_get db)) before ->
  catalog_get db (CartItem.product_id ci) = None ->
  resolve_cart (before ++ ci :: after) db
  = Err (not_found (CartItem.product_id ci)).
Proof.
  intros Hwf Hall Hnone.
  destruct (mapM_ObjectId_wf _ Hwf) as [ids Hids].
  rewrite (resolve_cart_catalog _ _ _ Hids).
  apply cart_loop_missing.
  - apply (lookup_catalog_get db line_resolves); [|exact Hall].
    apply line_resolves_ext.
  - rewrite catalog_get_lookup. exact Hnone.
Qed.

Lemma resolve_cart_not_Ok cart db :
  ~ Forall (line_resolves (catalog_get db)) cart ->
  exists e, resolve_cart cart db = Err e.
Proof.
  intros Hnot.
  destruct (resolve_cart cart db) as [[items subtotal]|e] eqn:E; [|eauto].
  apply resolve_cart_Ok in E as (_ & _ & Hres & _). contradiction.
Qed.

(** The first line without a positive quantity stops a loop whose products
    are all there, with prices that pass and quantities that convert. *)
Lemma cart_loop_quantity pm cart : forall items subtotal,
  Forall (fun ci => exists prod,
    pm !! CartItem.product_id ci = Some prod
    /\ Float.nonneg (Product.price (body prod))
    /\ is_Some (Float.of_int (CartItem.quantity ci))) cart ->
  Exists (fun ci => (CartItem.quantity ci <= 0)%Z) cart ->
  cart_loop pm cart items subtotal
  = Err (ValidationError "OrderItem" ["quantity"]).
Proof.
  induction cart as [|ci cart IH]; intros items subtotal Hall Hex;
    [inversion Hex|].
  inversion Hall as [|? ? (prod & Eprod & Hp & [q Eq]) Hrest]; subst.
  cbn [cart_loop]. rewrite Eprod, Eq.
  destruct (Z.le_gt_cases 1 (CartItem.quantity ci)) as [Hq|Hq].
  - rewrite OrderItem_new_valid by assumption.
    rewrite result_bind_Ok. apply IH; [exact Hrest|].
    inversion Hex; subst; [lia|assumption].
  - unfold OrderItem.new, check.
    rewrite (proj1 (nonneg_ge_zero _) Hp).
    rewrite (proj2 (Z.leb_gt _ _)) by lia. reflexivity.
Qed.
End Resolve.

(** ** Seeding *)

Section Seed.
Implicit Types db : Database.

Lemma seed_products_body_raises db :
  seed_products_body db = (Err NotImplementedError, db).
Proof. reflexivity. Qed.
End Seed.

(** * The claims *)

(** C1, as stated, fails: a cart line that names an existing product but
    asks for quantity 0 is refused by [OrderItem] (quantity >= 1), so no
    order line is emitted and no order is stored. *)
Lemma checkout_zero_quantity_no_order :
  Forall (fun ci =>
            is_Some (catalog_get Sample.seeded (CartItem.product_id ci)))
    [CartItem.Build Sample.jag_500 0]
  /\ checkout (Sample.request "cod" [CartItem.Build Sample.jag_500 0])
       Sample.seeded
     = (Err (HTTPException 500
               (str (ValidationError "OrderItem" ["quantity"]))),
        Sample.seeded)
  /\ Float.of_int (2 ^ 1024) = None
  /\ checkout (Sample.request "cod" [CartItem.Build Sample.jag_500 (2 ^ 1024)])
       Sample.seeded
     = (Err (HTTPException 500 (str OverflowError)), Sample.seeded).
Proof.
  split; [|split; [|split]].
  - constructor; [|constructor]. eexists. evaluate.
  - evaluate.
  - evaluate.
  - evaluate.
Qed.

(** C1 (amended): when every cart line names an existing product whose
    price is not negative, with a quantity that is at least 1 and converts
    to a float, checkout stores an order with exactly one item per cart
    line, in cart order, each carrying the line's product_id, the product's
    title and price as they are in the catalog at that moment, and the
    line's quantity; and the stored subtotal is the sum of price times
    quantity over those items, rounded to 2 decimal places. *)
Theorem checkout_items_and_subtotal payload db :
  Forall (line_resolves (catalog_get db)) (CheckoutRequest.cart payload) ->
  exists o,
    checkout payload db = (Ok (result_of db o), insert_order db o)
    /\ Forall2 (snapshot_of (catalog_get db))
         (CheckoutRequest.cart payload) (Order.items o)
    /\ Order.subtotal o = Float.round2 (fsum (line_total <$> Order.items o)).
Proof.
  intros Hall.
  destruct (resolve_cart_resolves _ _ Hall) as (items & subtotal & E).
  exists (order_of payload items subtotal).
  split; [apply checkout_resolved, E|].
  apply resolve_cart_Ok in E as (_ & Hsnap & _ & ->).
  split; [exact Hsnap|reflexivity].
Qed.

Lemma checkout_items_and_subtotal_witness :
  exists o,
    checkout (Sample.request "cod" [CartItem.Build Sample.jag_500 2;
                                    CartItem.Build Sample.jag_1000 1])
      Sample.seeded
    = (Ok (result_of Sample.seeded o), insert_order Sample.seeded o)
    /\ Forall2 (snapshot_of (catalog_get Sample.seeded))
         [CartItem.Build Sample.jag_500 2; CartItem.Build Sample.jag_1000 1]
         (Order.items o)
    /\ Order.subtotal o = Float.round2 (fsum (line_total <$> Order.items o)).
Proof.
  apply (checkout_items_and_subtotal
           (Sample.request "cod" [CartItem.Build Sample.jag_500 2;
                                  CartItem.Build Sample.jag_1000 1])
           Sample.seeded).
  constructor; [|constructor; [|constructor]].
  - line_resolves_by_evaluation.
  - line_resolves_by_evaluation.
Defined.

(** C2: when the cart lines all resolve, checkout stores an order whose
    shipping charge is 0.0 if the unrounded subtotal is at least 10.0 and
    1.0 otherwise. *)
Theorem checkout_shipping payload db items subtotal :
  resolve_cart (CheckoutRequest.cart payload) db = Ok (items, subtotal) ->
  subtotal = fsum (line_total <$> items)
  /\ exists o,
    checkout payload db = (Ok (result_of db o), insert_order db o)
    /\ Order.shipping o
       = if Float.ge subtotal Float.ten then Float.zero else Float.one.
Proof.
  intros E. split; [apply resolve_cart_Ok in E; tauto|].
  exists (order_of payload items subtotal).
  split; [apply checkout_resolved, E|].
  cbn. apply round2_shipping_for.
Qed.

Lemma checkout_shipping_witness :
  exists o,
    checkout (Sample.request "card" [CartItem.Build Sample.jag_1000 3])
      Sample.seeded
    = (Ok (result_of Sample.seeded o), insert_order Sample.seeded o)
    /\ Order.shipping o = Float.zero.
Proof.
  refine (proj2 (checkout_shipping
    (Sample.request "card" [CartItem.Build Sample.jag_1000 3]) Sample.seeded
    [OrderItem.Build Sample.jag_1000 "Jaggery Powder 1kg"
       (Float.decimal 449 2) 3]
    (Float.mul (Float.decimal 449 2) (Float.of_Z 3)) _)).
  evaluate.
Defined.

(** C3, as stated, fails: for three 500g packs at 2.49 the unrounded
    subtotal is 7.470000000000001; the stored subtotal is 7.47, the stored
    shipping 1.0 and the stored total 8.47, while 7.47 + 1.0 is
    8.469999999999999 in floats. *)
Lemma checkout_total_is_not_sum_of_rounded :
  exists o,
    checkout (Sample.request "cod" [CartItem.Build Sample.jag_500 3])
      Sample.seeded
    = (Ok (result_of Sample.seeded o), insert_order Sample.seeded o)
    /\ Order.subtotal o = Float.decimal 747 2
    /\ Order.shipping o = Float.one
    /\ Order.total o = Float.decimal 847 2
    /\ Float.add (Order.subtotal o) (Order.shipping o) <> Order.total o.
Proof.
  exists (order_of (Sample.request "cod" [CartItem.Build Sample.jag_500 3])
            [Sample.item_500 3] (Float.decimal 249 2 * Float.of_Z 3)%float).
  split; [evaluate|].
  repeat split; try (evaluate).
  vm_compute. discriminate.
Qed.

(** C3 (amended): for every successful checkout, the stored total is
    round(subtotal + shipping, 2): the unrounded subtotal and the shipping
    charge are added first and the sum is rounded to 2 decimal places; the
    stored subtotal and shipping are each rounded on their own, and the
    total returned to the caller is the stored one. *)
Theorem checkout_total payload db r db' :
  checkout payload db = (Ok r, db') ->
  exists items subtotal o,
    resolve_cart (CheckoutRequest.cart payload) db = Ok (items, subtotal)
    /\ db' = insert_order db o
    /\ Order.subtotal o = Float.round2 subtotal
    /\ Order.shipping o = Float.round2 (shipping_for subtotal)
    /\ Order.total o
       = Float.round2 (Float.add subtotal (shipping_for subtotal))
    /\ total r = Order.total o.
Proof.
  intros H. apply checkout_Ok in H as (items & subtotal & E & -> & ->).
  exists items, subtotal, (order_of payload items subtotal).
  repeat split; assumption.
Qed.

Lemma checkout_total_witness :
  exists items subtotal o,
    resolve_cart [CartItem.Build Sample.jag_500 3] Sample.seeded
    = Ok (items, subtotal)
    /\ insert_order Sample.seeded
         (order_of (Sample.request "cod" [CartItem.Build Sample.jag_500 3])
            [Sample.item_500 3] (Float.decimal 249 2 * Float.of_Z 3)%float)
       = insert_order Sample.seeded o
    /\ Order.subtotal o = Float.round2 subtotal
    /\ Order.shipping o = Float.round2 (shipping_for subtotal)
    /\ Order.total o
       = Float.round2 (Float.add subtotal (shipping_for subtotal))
    /\ Float.decimal 847 2 = Order.total o.
Proof.
  apply (checkout_total
    (Sample.request "cod" [CartItem.Build Sample.jag_500 3]) Sample.seeded
    (result_of Sample.seeded
       (order_of (Sample.request "cod" [CartItem.Build Sample.jag_500 3])
          [Sample.item_500 3] (Float.decimal 249 2 * Float.of_Z 3)%float))).
  evaluate.
Defined.

(** C4: for every successful checkout, a payment_method that is exactly
    "card" gives status "paid" and a payment object with provider "mock",
    status "succeeded" and the returned order_id as transaction_id; any
    other payment_method gives status "pending" and no payment object. *)
Theorem checkout_status_and_payment payload db r db' :
  checkout payload db = (Ok r, db') ->
  (CheckoutRequest.payment_method payload = "card" ->
     status r = "paid"
     /\ payment r = Some {| provider := "mock";
                            payment_status := "succeeded";
                            transaction_id := order_id r |})
  /\ (CheckoutRequest.payment_method payload <> "card" ->
     status r = "pending" /\ payment r = None).
Proof.
  intros H. apply checkout_Ok in H as (items & subtotal & _ & -> & _).
  unfold result_of, order_of, status_for. cbn.
  destruct (decide (CheckoutRequest.payment_method payload = "card"));
    split; intros; try contradiction; auto.
Qed.

Lemma checkout_status_and_payment_witness :
  status (result_of Sample.seeded
            (order_of (Sample.request "card"
                         [CartItem.Build Sample.jag_1000 3])
               [Sample.item_1000 3]
               (Float.decimal 449 2 * Float.of_Z 3)%float))
  = "paid"
  /\ payment (result_of Sample.seeded
                (order_of (Sample.request "card"
                             [CartItem.Build Sample.jag_1000 3])
                   [Sample.item_1000 3]
                   (Float.decimal 449 2 * Float.of_Z 3)%float))
     = Some {| provider := "mock"; payment_status := "succeeded";
               transaction_id := "000000000000000000000002" |}.
Proof.
  apply (checkout_status_and_payment
    (Sample.request "card" [CartItem.Build Sample.jag_1000 3]) Sample.seeded
    (result_of Sample.seeded
       (order_of (Sample.request "card" [CartItem.Build Sample.jag_1000 3])
          [Sample.item_1000 3] (Float.decimal 449 2 * Float.of_Z 3)%float))
    (insert_order Sample.seeded
       (order_of (Sample.request "card" [CartItem.Build Sample.jag_1000 3])
          [Sample.item_1000 3] (Float.decimal 449 2 * Float.of_Z 3)%float))).
  - evaluate.
  - reflexivity.
Defined.

(** C5, as stated, fails: a product_id that is absent from the catalog and
    is not a well-formed object identifier raises InvalidId while the
    identifiers are converted, which surfaces as the 500 error; and a line
    that is refused before the absent one is reached makes the error the
    500 of that line. No order is stored in either case. *)
Lemma checkout_missing_product_may_be_500 :
  catalog_get Sample.seeded "xyz" = None
  /\ checkout (Sample.request "cod" [CartItem.Build "xyz" 1]) Sample.seeded
     = (Err (HTTPException 500 (str (InvalidId "xyz"))), Sample.seeded)
  /\ catalog_get Sample.seeded "0000000000000000000000ff" = None
  /\ checkout
       (Sample.request "cod"
          [CartItem.Build Sample.jag_500 0;
           CartItem.Build "0000000000000000000000ff" 1])
       Sample.seeded
     = (Err (HTTPException 500
               (str (ValidationError "OrderItem" ["quantity"]))),
        Sample.seeded).
Proof. repeat split; evaluate. Qed.

(** C5 (amended): a checkout whose cart holds a product_id absent from the
    catalog always fails, with status 404 or 500, and stores nothing: the
    database after the call is the database before it. When every
    product_id of the cart is a well-formed object identifier and every
    line before the first absent one resolves, the failure is the 404
    error with message "Product {id} not found", naming that first absent
    product_id. *)
Theorem checkout_missing_product payload db :
  Exists (fun ci => catalog_get db (CartItem.product_id ci) = None)
    (CheckoutRequest.cart payload) ->
  (exists status_code detail,
     checkout payload db = (Err (HTTPException status_code detail), db)
     /\ (status_code = 404 \/ status_code = 500)%Z)
  /\ forall before ci after,
       CheckoutRequest.cart payload = before ++ ci :: after ->
       Forall (fun c => is_Some (ObjectId_of_str (CartItem.product_id c)))
         (CheckoutRequest.cart payload) ->
       Forall (line_resolves (catalog_get db)) before ->
       catalog_get db (CartItem.product_id ci) = None ->
       checkout payload db
       = (Err (HTTPException 404
                 (Text ("Product " +:+ CartItem.product_id ci
                        +:+ " not found"))),
          db).
Proof.
  intros Hex. split.
  - destruct (resolve_cart_not_Ok (CheckoutRequest.cart payload) db)
      as [e He].
    { intros Hall. apply Exists_exists in Hex as (ci & Hin & Hnone).
      rewrite Forall_forall in Hall.
      destruct (Hall ci Hin) as (prod & Hprod & _). congruence. }
    rewrite (checkout_unresolved _ _ _ He).
    apply resolve_cart_Err in He
      as [(ci & _ & _ & ->)|[(ci & _ & _ & ->)|[->|[fields ->]]]];
      cbn; eauto 6.
  - intros before ci after Hcart Hwf Hall Hnone.
    rewrite Hcart in Hwf.
    rewrite (checkout_unresolved payload db
               (not_found (CartItem.product_id ci))); [reflexivity|].
    rewrite Hcart.
    apply resolve_cart_missing; [apply hex_digits_accepted, Hwf| |];
      assumption.
Qed.

Lemma checkout_missing_product_witness :
  checkout
    (Sample.request "card"
       [CartItem.Build Sample.jag_500 1;
        CartItem.Build "0000000000000000000000ff" 2;
        CartItem.Build Sample.jag_1000 1])
    Sample.seeded
  = (Err (HTTPException 404
            (Text "Product 0000000000000000000000ff not found")),
     Sample.seeded).
Proof.
  refine (proj2 (checkout_missing_product
    (Sample.request "card"
       [CartItem.Build Sample.jag_500 1;
        CartItem.Build "0000000000000000000000ff" 2;
        CartItem.Build Sample.jag_1000 1])
    Sample.seeded _)
    [CartItem.Build Sample.jag_500 1]
    (CartItem.Build "0000000000000000000000ff" 2)
    [CartItem.Build Sample.jag_1000 1] _ _ _ _).
  - apply Exists_cons_tl, Exists_cons_hd. evaluate.
  - reflexivity.
  - constructor; [|constructor; [|constructor; [|constructor]]];
      eexists; evaluate.
  - constructor; [|constructor]. line_resolves_by_evaluation.
  - evaluate.
Defined.

(** C6: the code does not get as far as the seeding the claim describes.
    The first thing [seed_products] does is to test the truth of [db]
    ([... if db else []], main.py line 57); a pymongo [Database] raises
    NotImplementedError there, so the handler answers 500 and inserts
    nothing, on every call: a catalog without seed products stays without
    them, where the claim has two inserted. The sibling handler of [/test]
    asks [db is not None] instead. *)
Theorem seed_products_truth_test_raises db :
  seed_products db
  = (Err (HTTPException 500 (str NotImplementedError)), db).
Proof.
  unfold seed_products. rewrite seed_products_body_raises. reflexivity.
Qed.

(** C7: checkout never changes the product collection: whether it succeeds
    or fails, the catalog after the call is the catalog before it, every
    product with its in_stock flag, price and title. *)
Theorem checkout_preserves_catalog payload db :
  db_product (snd (checkout payload db)) = db_product db.
Proof.
  destruct (resolve_cart (CheckoutRequest.cart payload) db)
    as [[items subtotal]|e] eqn:E.
  - rewrite (checkout_resolved _ _ _ _ E). reflexivity.
  - rewrite (checkout_unresolved _ _ _ E). reflexivity.
Qed.

(** C8, as stated, fails: a line with quantity -1 for an existing product
    is not processed; [OrderItem] refuses it and checkout fails with the
    500 error, storing nothing. *)
Lemma checkout_negative_quantity_rejected :
  Forall (fun ci =>
            is_Some (catalog_get Sample.seeded (CartItem.product_id ci)))
    [CartItem.Build Sample.jag_1000 (-1)]
  /\ checkout (Sample.request "card" [CartItem.Build Sample.jag_1000 (-1)])
       Sample.seeded
     = (Err (HTTPException 500
               (str (ValidationError "OrderItem" ["quantity"]))),
        Sample.seeded).
Proof.
  split.
  - constructor; [|constructor]. eexists. evaluate.
  - evaluate.
Qed.

(** C8 (amended): [CartItem] puts no bound on quantity, but checkout does
    not process a line whose quantity is 0 or less. When every cart line
    names an existing product and some line has quantity <= 0, checkout
    fails with the 500 error and stores nothing; the exception behind it
    is an [OrderItem] validation error or an OverflowError, and it is the
    validation error on the field quantity when every product's price is
    not negative and every quantity converts to a float. *)
Theorem checkout_nonpositive_quantity payload db :
  Forall (fun ci => is_Some (catalog_get db (CartItem.product_id ci)))
    (CheckoutRequest.cart payload) ->
  Exists (fun ci => (CartItem.quantity ci <= 0)%Z)
    (CheckoutRequest.cart payload) ->
  (exists e,
     checkout payload db = (Err (HTTPException 500 (str e)), db)
     /\ (e = OverflowError
         \/ exists fields, e = ValidationError "OrderItem" fields))
  /\ (Forall (fun ci => exists prod,
                catalog_get db (CartItem.product_id ci) = Some prod
                /\ Float.nonneg (Product.price (body prod))
                /\ is_Some (Float.of_int (CartItem.quantity ci)))
        (CheckoutRequest.cart payload) ->
      checkout payload db
      = (Err (HTTPException 500
                (str (ValidationError "OrderItem" ["quantity"]))),
         db)).
Proof.
  intros Hall Hex. split.
  - destruct (resolve_cart_not_Ok (CheckoutRequest.cart payload) db)
      as [e He].
    { intros Hres. apply Exists_exists in Hex as (ci & Hin & Hq).
      rewrite Forall_forall in Hres.
      destruct (Hres ci Hin) as (_ & _ & _ & Hq' & _). lia. }
    rewrite (checkout_unresolved _ _ _ He).
    apply resolve_cart_Err in He
      as [(ci & Hin & Hnone & ->)|[(ci & Hin & Hnone & ->)|He]].
    + rewrite Forall_forall in Hall. destruct (Hall ci Hin) as [d Hd].
      rewrite (catalog_get_binary _ _ _ Hd) in Hnone. discriminate.
    + rewrite Forall_forall in Hall. destruct (Hall ci Hin) as [d Hd].
      congruence.
    + destruct He as [->|[fields ->]]; cbn; eauto 6.
  - intros Hok.
    destruct (mapM_ObjectId_wf (CheckoutRequest.cart payload)) as [ids Hids].
    { eapply Forall_impl; [exact Hall|]. intros ci [d Hd].
      rewrite (catalog_get_binary _ _ _ Hd). eauto. }
    rewrite (checkout_unresolved payload db
               (ValidationError "OrderItem" ["quantity"])); [reflexivity|].
    rewrite (resolve_cart_catalog _ _ _ Hids).
    apply cart_loop_quantity; [|exact Hex].
    eapply Forall_impl; [exact Hok|].
    intros ci (prod & Hprod & Hrest). exists prod.
    rewrite catalog_get_lookup. auto.
Qed.

Lemma checkout_nonpositive_quantity_witness :
  checkout
    (Sample.request "cod"
       [CartItem.Build Sample.jag_500 2; CartItem.Build Sample.jag_1000 0])
    Sample.seeded
  = (Err (HTTPException 500
            (str (ValidationError "OrderItem" ["quantity"]))),
     Sample.seeded).
Proof.
  refine (proj2 (checkout_nonpositive_quantity
    (Sample.request "cod"
       [CartItem.Build Sample.jag_500 2; CartItem.Build Sample.jag_1000 0])
    Sample.seeded _ _) _).
  - constructor; [|constructor; [|constructor]];
      eexists; evaluate.
  - apply Exists_cons_tl, Exists_cons_hd. cbn. lia.
  - constructor; [|constructor; [|constructor]]; eexists;
      (split; [evaluate|]);
      (split; [reflexivity|]); eexists; evaluate.
Defined.

(** C9: a checkout with an empty cart succeeds: it stores an order with no
    items, subtotal 0.0, shipping 1.0 and total 1.0, and returns that
    total with the new order's identifier. *)
Theorem checkout_empty_cart payload db :
  CheckoutRequest.cart payload = [] ->
  exists o,
    checkout payload db = (Ok (result_of db o), insert_order db o)
    /\ Order.items o = []
    /\ Order.subtotal o = Float.zero
    /\ Order.shipping o = Float.one
    /\ Order.total o = Float.one
    /\ total (result_of db o) = Float.one
    /\ order_id (result_of db o) = str_of_ObjectId (next_id db).
Proof.
  intros Hcart.
  exists (order_of payload [] Float.zero). split.
  - apply checkout_resolved. rewrite Hcart. reflexivity.
  - repeat split.
Qed.

Lemma checkout_empty_cart_witness :
  exists o,
    checkout (Sample.request "cod" []) Sample.seeded
    = (Ok (result_of Sample.seeded o), insert_order Sample.seeded o)
    /\ Order.items o = []
    /\ Order.subtotal o = Float.zero
    /\ Order.shipping o = Float.one
    /\ Order.total o = Float.one
    /\ total (result_of Sample.seeded o) = Float.one
    /\ order_id (result_of Sample.seeded o) = "000000000000000000000002".
Proof.
  apply (checkout_empty_cart (Sample.request "cod" []) Sample.seeded).
  reflexivity.
Defined.




(** * Further properties *)

(** ** Checkout: success, failure and what is stored *)

Section CheckoutFurther.
Implicit Types (payload : CheckoutRequest.t) (db : Database)
  (cart : list CartItem.t).

Lemma checkout_cases payload db :
  (exists items subtotal,
     resolve_cart (CheckoutRequest.cart payload) db = Ok (items, subtotal)
     /\ checkout payload db
        = (Ok (result_of db (order_of payload items subtotal)),
           insert_order db (order_of payload items subtotal)))
  \/ (exists e,
     resolve_cart (CheckoutRequest.cart payload) db = Err e
     /\ checkout payload db = (except_HTTPException_Exception (Err e), db)).
Proof.
  destruct (resolve_cart (CheckoutRequest.cart payload) db)
    as [[items subtotal]|e] eqn:E.
  - left. exists items, subtotal. split; [reflexivity|].
    apply checkout_resolved, E.
  - right. exists e. split; [reflexivity|]. apply checkout_unresolved, E.
Qed.

Lemma resolve_cart_items_valid cart db items subtotal :
  resolve_cart cart db = Ok (items, subtotal) ->
  Forall (fun item => Float.nonneg (OrderItem.price item)
                      /\ (1 <= OrderItem.quantity item)%Z) items.
Proof.
  intros H. apply resolve_cart_Ok in H as (_ & Hsnap & Hres & _).
  induction Hsnap as [|ci item cart items Hci _ IH]; [constructor|].
  inversion Hres as [|? ? Hr Hrest]; subst.
  constructor; [|apply IH, Hrest].
  destruct Hci as (prod & Hprod & ->).
  destruct Hr as (prod' & Hprod' & Hp & Hq & _).
  assert (prod' = prod) as -> by congruence. split; assumption.
Qed.

Lemma resolve_cart_frame cart db db2 :
  Forall (fun ci => catalog_get db (CartItem.product_id ci)
                    = catalog_get db2 (CartItem.product_id ci)) cart ->
  resolve_cart cart db = resolve_cart cart db2.
Proof.
  intros Hsame. destruct (mapM ObjectId_of cart) as [ids|e] eqn:Eids.
  - rewrite (resolve_cart_catalog _ db _ Eids),
      (resolve_cart_catalog _ db2 _ Eids).
    apply cart_loop_ext. eapply Forall_impl; [exact Hsame|].
    intros ci H. cbn. rewrite !catalog_get_lookup. exact H.
  - rewrite (resolve_cart_invalid _ db _ Eids),
      (resolve_cart_invalid _ db2 _ Eids). reflexivity.
Qed.

Lemma add_zero_ge_ten x :
  Float.ge x Float.ten = true -> Float.add x Float.zero = x.
Proof.
  destruct x as [s|s| |s m e]; try reflexivity; discriminate.
Qed.

Lemma shipping_for_zero subtotal :
  shipping_for subtotal = Float.zero -> Float.ge subtotal Float.ten = true.
Proof.
  unfold shipping_for. destruct (Float.ge subtotal Float.ten);
    [reflexivity|discriminate].
Qed.
End CheckoutFurther.

(** X1: checkout succeeds only if every cart line resolves: each
    product_id names a product of the catalog whose price is not negative,
    with a quantity that is at least 1 and converts to a float. *)
Theorem checkout_succeeds_only_if payload db r db' :
  checkout payload db = (Ok r, db') ->
  Forall (line_resolves (catalog_get db)) (CheckoutRequest.cart payload).
Proof.
  intros H. apply checkout_Ok in H as (items & subtotal & E & _).
  apply resolve_cart_Ok in E. tauto.
Qed.

Lemma checkout_succeeds_only_if_witness :
  Forall (line_resolves (catalog_get Sample.seeded))
    [CartItem.Build Sample.jag_500 2; CartItem.Build Sample.jag_1000 1].
Proof.
  apply (checkout_succeeds_only_if
    (Sample.request "cod"
       [CartItem.Build Sample.jag_500 2; CartItem.Build Sample.jag_1000 1])
    Sample.seeded
    (result_of Sample.seeded
       (order_of
          (Sample.request "cod"
             [CartItem.Build Sample.jag_500 2;
              CartItem.Build Sample.jag_1000 1])
          [Sample.item_500 2; Sample.item_1000 1]
          (Float.decimal 249 2 * Float.of_Z 2
           + Float.decimal 449 2 * Float.of_Z 1)%float))
    (insert_order Sample.seeded
       (order_of
          (Sample.request "cod"
             [CartItem.Build Sample.jag_500 2;
              CartItem.Build Sample.jag_1000 1])
          [Sample.item_500 2; Sample.item_1000 1]
          (Float.decimal 249 2 * Float.of_Z 2
           + Float.decimal 449 2 * Float.of_Z 1)%float))).
  evaluate.
Defined.

(** X2: a checkout that succeeds adds exactly one order, after the orders
    already stored, and returns that order's identifier, total and status;
    a checkout that fails leaves the whole database as it was. *)
Theorem checkout_stores_one_order payload db :
  match checkout payload db with
  | (Ok r, db') =>
      exists d,
        db_order db' = db_order db ++ [d]
        /\ str_of_ObjectId (_id d) = order_id r
        /\ Order.total (body d) = total r
        /\ Order.status (body d) = status r
  | (Err _, db') => db' = db
  end.
Proof.
  destruct (checkout_cases payload db)
    as [(items & subtotal & _ & ->)|(e & _ & ->)].
  - eexists. split; [reflexivity|]. repeat split.
  - destruct e; reflexivity.
Qed.

(** X3: the stored order carries the customer's name, email, phone, address
    line, city and pincode and the payment method exactly as the request
    gave them. *)
Theorem checkout_copies_request payload db r db' :
  checkout payload db = (Ok r, db') ->
  exists d,
    last (db_order db') = Some d
    /\ Order.customer_name (body d) = CheckoutRequest.name payload
    /\ Order.email (body d) = CheckoutRequest.email payload
    /\ Order.phone (body d) = CheckoutRequest.phone payload
    /\ Order.address_line (body d) = CheckoutRequest.address_line payload
    /\ Order.city (body d) = CheckoutRequest.city payload
    /\ Order.pincode (body d) = CheckoutRequest.pincode payload
    /\ Order.payment_method (body d)
       = CheckoutRequest.payment_method payload.
Proof.
  intros H. apply checkout_Ok in H as (items & subtotal & _ & _ & ->).
  eexists. split; [apply last_snoc|]. repeat split.
Qed.

Lemma checkout_copies_request_witness :
  exists d,
    last (db_order
            (insert_order Sample.seeded
               (order_of (Sample.request "cod"
                            [CartItem.Build Sample.jag_500 2])
                  [Sample.item_500 2]
                  (Float.decimal 249 2 * Float.of_Z 2)%float)))
    = Some d
    /\ Order.customer_name (body d) = "Asha"
    /\ Order.email (body d) = "asha@example.com"
    /\ Order.phone (body d) = "5550100"
    /\ Order.address_line (body d) = "1 Mill Road"
    /\ Order.city (body d) = "Pune"
    /\ Order.pincode (body d) = "411001"
    /\ Order.payment_method (body d) = "cod".
Proof.
  apply (checkout_copies_request
    (Sample.request "cod" [CartItem.Build Sample.jag_500 2]) Sample.seeded
    (result_of Sample.seeded
       (order_of (Sample.request "cod" [CartItem.Build Sample.jag_500 2])
          [Sample.item_500 2] (Float.decimal 249 2 * Float.of_Z 2)%float))).
  evaluate.
Defined.

(** X4: every order checkout stores satisfies the constraints of the
    [Order] and [OrderItem] schemas: subtotal, shipping and total are not
    negative (and not NaN), shipping is 0.0 or 1.0, and every item has a
    price that is not negative and a quantity of at least 1. *)
Theorem checkout_stores_valid_order payload db r db' :
  checkout payload db = (Ok r, db') ->
  exists d,
    last (db_order db') = Some d
    /\ Float.nonneg (Order.subtotal (body d))
    /\ Float.nonneg (Order.total (body d))
    /\ (Order.shipping (body d) = Float.zero
        \/ Order.shipping (body d) = Float.one)
    /\ Forall (fun item => Float.nonneg (OrderItem.price item)
                           /\ (1 <= OrderItem.quantity item)%Z)
         (Order.items (body d)).
Proof.
  intros H. apply checkout_Ok in H as (items & subtotal & E & _ & ->).
  eexists. split; [apply last_snoc|]. cbn.
  pose proof (resolve_cart_nonneg _ _ _ _ E) as Hs.
  split; [apply round2_nonneg, Hs|].
  split; [apply round2_nonneg, add_nonneg;
          [exact Hs|apply shipping_for_nonneg]|].
  split; [rewrite round2_shipping_for; apply shipping_for_cases|].
  eapply resolve_cart_items_valid, E.
Qed.

Lemma checkout_stores_valid_order_witness :
  exists d,
    last (db_order
            (insert_order Sample.seeded
               (order_of (Sample.request "cod"
                            [CartItem.Build Sample.jag_500 2])
                  [Sample.item_500 2]
                  (Float.decimal 249 2 * Float.of_Z 2)%float)))
    = Some d
    /\ Float.nonneg (Order.subtotal (body d))
    /\ Float.nonneg (Order.total (body d))
    /\ (Order.shipping (body d) = Float.zero
        \/ Order.shipping (body d) = Float.one)
    /\ Forall (fun item => Float.nonneg (OrderItem.price item)
                           /\ (1 <= OrderItem.quantity item)%Z)
         (Order.items (body d)).
Proof.
  apply (checkout_stores_valid_order
    (Sample.request "cod" [CartItem.Build Sample.jag_500 2]) Sample.seeded
    (result_of Sample.seeded
       (order_of (Sample.request "cod" [CartItem.Build Sample.jag_500 2])
          [Sample.item_500 2] (Float.decimal 249 2 * Float.of_Z 2)%float))).
  evaluate.
Defined.



(** ** Checkout: the line that stops it *)

Section FirstFailure.
Implicit Types (payload : CheckoutRequest.t) (db : Database)
  (cart : list CartItem.t).

(** The loop gets past lines that resolve. *)
Lemma cart_loop_app pm before rest : forall items subtotal,
  Forall (line_resolves (fun k => pm !! k)) before ->
  exists items' subtotal',
    cart_loop pm (before ++ rest) items subtotal
    = cart_loop pm rest items' subtotal'.
Proof.
  induction before as [|c before IH]; intros items subtotal Hall.
  - cbn. eauto.
  - inversion Hall as [|? ? (prod & Eprod & Hp & Hq & [q Eq]) Hrest]; subst.
    cbn [app cart_loop]. rewrite Eprod, Eq.
    rewrite OrderItem_new_valid by assumption.
    rewrite result_bind_Ok. apply IH, Hrest.
Qed.

(** What checkout answers when the loop stops at [ci] with [e]. *)
Lemma checkout_stops_at payload db before ci after e :
  CheckoutRequest.cart payload = before ++ ci :: after ->
  Forall (fun c => is_Some (ObjectId_of_str (CartItem.product_id c)))
    (CheckoutRequest.cart payload) ->
  Forall (line_resolves (catalog_get db)) before ->
  (forall items subtotal,
     cart_loop (product_map_of (db_product db)) (ci :: after) items subtotal
     = Err e) ->
  checkout payload db = (except_HTTPException_Exception (Err e), db).
Proof.
  intros Hcart Hwf Hall Hstop. apply checkout_unresolved.
  destruct (mapM_ObjectId_wf _ (hex_digits_accepted _ Hwf)) as [ids Hids].
  rewrite (resolve_cart_catalog _ _ _ Hids), Hcart.
  destruct (cart_loop_app (product_map_of (db_product db)) before
              (ci :: after) [] Float.zero) as (items' & subtotal' & ->).
  { apply (lookup_catalog_get db line_resolves); [|exact Hall].
    apply line_resolves_ext. }
  apply Hstop.
Qed.

Lemma catalog_get_canonical db pid d o :
  catalog_get db pid = Some d -> ObjectId_of_str pid = Some o ->
  str_of_ObjectId o = pid.
Proof.
  intros Hd Ho. rewrite (catalog_get_wf _ _ _ Hd) in Ho.
  injection Ho as <-. apply catalog_get_Some in Hd. tauto.
Qed.
End FirstFailure.

(** X6: a quantity that does not convert to a float stops checkout with
    the 500 of OverflowError, whatever its sign, when the identifiers of the
    cart are well formed, the lines before it resolve and its product is in
    the catalog; nothing is stored. *)
Theorem checkout_quantity_overflow payload db before ci after :
  CheckoutRequest.cart payload = before ++ ci :: after ->
  Forall (fun c => is_Some (ObjectId_of_str (CartItem.product_id c)))
    (CheckoutRequest.cart payload) ->
  Forall (line_resolves (catalog_get db)) before ->
  is_Some (catalog_get db (CartItem.product_id ci)) ->
  Float.of_int (CartItem.quantity ci) = None ->
  checkout payload db = (Err (HTTPException 500 (str OverflowError)), db).
Proof.
  intros Hcart Hwf Hall [prod Hprod] Hq.
  rewrite (checkout_stops_at payload db before ci after OverflowError);
    try assumption; [reflexivity|].
  intros items subtotal. cbn [cart_loop].
  rewrite catalog_get_lookup, Hprod, Hq. reflexivity.
Qed.

Lemma checkout_quantity_overflow_witness :
  checkout
    (Sample.request "cod"
       [CartItem.Build Sample.jag_500 1;
        CartItem.Build Sample.jag_1000 (- 2 ^ 1024)])
    Sample.seeded
  = (Err (HTTPException 500 (str OverflowError)), Sample.seeded).
Proof.
  apply (checkout_quantity_overflow
    (Sample.request "cod"
       [CartItem.Build Sample.jag_500 1;
        CartItem.Build Sample.jag_1000 (- 2 ^ 1024)])
    Sample.seeded
    [CartItem.Build Sample.jag_500 1]
    (CartItem.Build Sample.jag_1000 (- 2 ^ 1024)) []).
  - reflexivity.
  - constructor; [|constructor; [|constructor]]; eexists; evaluate.
  - constructor; [|constructor]. line_resolves_by_evaluation.
  - eexists. evaluate.
  - evaluate.
Defined.

(** X7: a line whose product is found and whose quantity converts, but
    whose price is negative or NaN or whose quantity is below 1, stops
    checkout with the 500 of an [OrderItem] validation error that names
    exactly the fields at fault, price before quantity; nothing is
    stored. *)
Theorem checkout_line_refused payload db before ci after prod :
  CheckoutRequest.cart payload = before ++ ci :: after ->
  Forall (fun c => is_Some (ObjectId_of_str (CartItem.product_id c)))
    (CheckoutRequest.cart payload) ->
  Forall (line_resolves (catalog_get db)) before ->
  catalog_get db (CartItem.product_id ci) = Some prod ->
  is_Some (Float.of_int (CartItem.quantity ci)) ->
  Float.ge (Product.price (body prod)) Float.zero
  && (1 <=? CartItem.quantity ci)%Z = false ->
  checkout payload db
  = (Err (HTTPException 500
            (str (ValidationError "OrderItem"
                    (check (Float.ge (Product.price (body prod)) Float.zero)
                       "price"
                     ++ check (1 <=? CartItem.quantity ci)%Z "quantity")))),
     db).
Proof.
  intros Hcart Hwf Hall Hprod [q Hq] Hbad.
  rewrite (checkout_stops_at payload db before ci after
    (ValidationError "OrderItem"
       (check (Float.ge (Product.price (body prod)) Float.zero) "price"
        ++ check (1 <=? CartItem.quantity ci)%Z "quantity")));
    try assumption; [reflexivity|].
  intros items subtotal. cbn [cart_loop].
  rewrite catalog_get_lookup, Hprod, Hq. unfold OrderItem.new.
  destruct (Float.ge (Product.price (body prod)) Float.zero);
    destruct (1 <=? CartItem.quantity ci)%Z; try discriminate; reflexivity.
Qed.

Lemma checkout_line_refused_witness :
  checkout
    (Sample.request "cod"
       [CartItem.Build Sample.jag_500 1; CartItem.Build Sample.jag_1000 0;
        CartItem.Build "0000000000000000000000ff" 1])
    Sample.seeded
  = (Err (HTTPException 500
            (str (ValidationError "OrderItem" ["quantity"]))),
     Sample.seeded).
Proof.
  apply (checkout_line_refused
    (Sample.request "cod"
       [CartItem.Build Sample.jag_500 1; CartItem.Build Sample.jag_1000 0;
        CartItem.Build "0000000000000000000000ff" 1])
    Sample.seeded
    [CartItem.Build Sample.jag_500 1]
    (CartItem.Build Sample.jag_1000 0)
    [CartItem.Build "0000000000000000000000ff" 1]
    (Build_Document (ObjectId_of_N 1) jaggery_1000)).
  - reflexivity.
  - constructor; [|constructor; [|constructor; [|constructor]]];
      eexists; evaluate.
  - constructor; [|constructor]. line_resolves_by_evaluation.
  - evaluate.
  - eexists. evaluate.
  - evaluate.
Defined.

(** X8: the product map is keyed by the lower-case text of each identifier
    and is read with the product_id as the cart gives it. A product_id that
    is a well-formed identifier but is not written the way the store prints
    it (a digit in upper case) is therefore never found: checkout answers
    404 for it even when the product with that identifier is in the
    catalog. *)
Theorem checkout_id_not_canonical payload db before ci after o :
  CheckoutRequest.cart payload = before ++ ci :: after ->
  Forall (fun c => is_Some (ObjectId_of_str (CartItem.product_id c)))
    (CheckoutRequest.cart payload) ->
  Forall (line_resolves (catalog_get db)) before ->
  ObjectId_of_str (CartItem.product_id ci) = Some o ->
  str_of_ObjectId o <> CartItem.product_id ci ->
  checkout payload db
  = (Err (HTTPException 404
            (Text ("Product " +:+ CartItem.product_id ci +:+ " not found"))),
     db).
Proof.
  intros Hcart Hwf Hall Ho Hne.
  assert (Hnone : catalog_get db (CartItem.product_id ci) = None).
  { destruct (catalog_get db (CartItem.product_id ci)) as [d|] eqn:Hd;
      [|reflexivity].
    exfalso. apply Hne. eapply catalog_get_canonical; eassumption. }
  rewrite (checkout_stops_at payload db before ci after
             (not_found (CartItem.product_id ci)));
    try assumption; [reflexivity|].
  intros items subtotal. cbn [cart_loop].
  rewrite catalog_get_lookup, Hnone. reflexivity.
Qed.

Lemma checkout_id_not_canonical_witness :
  (exists d, d ∈ db_product Shelf.catalog
     /\ ObjectId_of_str "00000000000000000000000A" = Some (_id d)
     /\ is_Some (catalog_get Shelf.catalog "00000000000000000000000a"))
  /\ checkout
       (Sample.request "cod" [CartItem.Build "00000000000000000000000A" 1])
       Shelf.catalog
     = (Err (HTTPException 404
               (Text "Product 00000000000000000000000A not found")),
        Shelf.catalog).
Proof.
  split.
  - exists (Build_Document (ObjectId_of_N 10) jaggery_500).
    split; [left|]. split; [evaluate|]. eexists. evaluate.
  - apply (checkout_id_not_canonical
      (Sample.request "cod" [CartItem.Build "00000000000000000000000A" 1])
      Shelf.catalog [] (CartItem.Build "00000000000000000000000A" 1) []
      (ObjectId_of_N 10)).
    + reflexivity.
    + constructor; [|constructor]. eexists. evaluate.
    + constructor.
    + evaluate.
    + vm_compute. discriminate.
Defined.

(** X9: checkout looks at the catalog only through the products its cart
    names. Two databases that hold the same product under every product_id
    of the cart, and have handed out as many identifiers, give the same
    answer. *)
Theorem checkout_reads_named_products payload db db2 :
  Forall (fun ci => catalog_get db (CartItem.product_id ci)
                    = catalog_get db2 (CartItem.product_id ci))
    (CheckoutRequest.cart payload) ->
  db_inserted db = db_inserted db2 ->
  fst (checkout payload db) = fst (checkout payload db2).
Proof.
  intros Hsame Hn.
  pose proof (resolve_cart_frame _ _ _ Hsame) as E.
  destruct (checkout_cases payload db)
    as [(items & subtotal & Hr & ->)|(e & Hr & ->)].
  - rewrite E in Hr. rewrite (checkout_resolved _ _ _ _ Hr).
    cbn. unfold result_of, next_id. rewrite Hn. reflexivity.
  - rewrite E in Hr. rewrite (checkout_unresolved _ _ _ Hr). reflexivity.
Qed.

Lemma checkout_reads_named_products_witness :
  fst (checkout (Sample.request "cod" [CartItem.Build Sample.jag_1000 2])
         Sample.seeded)
  = fst (checkout (Sample.request "cod" [CartItem.Build Sample.jag_1000 2])
           {| db_product := [Build_Document (ObjectId_of_N 1) jaggery_1000];
              db_order := [];
              db_inserted := 2 |}).
Proof.
  apply (checkout_reads_named_products
    (Sample.request "cod" [CartItem.Build Sample.jag_1000 2]) Sample.seeded
    {| db_product := [Build_Document (ObjectId_of_N 1) jaggery_1000];
       db_order := [];
       db_inserted := 2 |}).
  - constructor; [|constructor]. evaluate.
  - reflexivity.
Defined.

(** X10: when the stored shipping is 0.0 (subtotal of 10 or more), the
    stored total equals the stored subtotal. *)
Theorem checkout_free_shipping_total payload db r db' :
  checkout payload db = (Ok r, db') ->
  exists d,
    last (db_order db') = Some d
    /\ (Order.shipping (body d) = Float.zero ->
        Order.total (body d) = Order.subtotal (body d)
        /\ total r = Order.subtotal (body d)).
Proof.
  intros H. apply checkout_Ok in H as (items & subtotal & _ & -> & ->).
  eexists. split; [apply last_snoc|]. cbn.
  rewrite round2_shipping_for. intros Hz. rewrite Hz.
  rewrite add_zero_ge_ten by (apply shipping_for_zero, Hz).
  split; reflexivity.
Qed.

Lemma checkout_free_shipping_total_witness :
  exists d,
    last (db_order
            (insert_order Sample.seeded
               (order_of (Sample.request "card"
                            [CartItem.Build Sample.jag_1000 3])
                  [Sample.item_1000 3]
                  (Float.decimal 449 2 * Float.of_Z 3)%float)))
    = Some d
    /\ (Order.shipping (body d) = Float.zero ->
        Order.total (body d) = Order.subtotal (body d)
        /\ Float.decimal 1347 2 = Order.subtotal (body d)).
Proof.
  apply (checkout_free_shipping_total
    (Sample.request "card" [CartItem.Build Sample.jag_1000 3]) Sample.seeded
    (result_of Sample.seeded
       (order_of (Sample.request "card" [CartItem.Build Sample.jag_1000 3])
          [Sample.item_1000 3] (Float.decimal 449 2 * Float.of_Z 3)%float))).
  evaluate.
Defined.



(** ** Listing *)

Section ListProducts.
Implicit Types db : Database.

Lemma list_products_eq db :
  list_products db
  = (Ok ((fun it : Document Product.t =>
            {| listed_id := Some (str_of_ObjectId (_id it));
               listed := body it |}) <$> db_product db),
     db).
Proof. reflexivity. Qed.

Lemma str_of_ObjectId_inj o1 o2 :
  str_of_ObjectId o1 = str_of_ObjectId o2 -> o1 = o2.
Proof.
  intros H. pose proof (ObjectId_of_str_str o1) as H1.
  rewrite H, ObjectId_of_str_str in H1. congruence.
Qed.

Lemma catalog_get_is_Some db d :
  d ∈ db_product db ->
  is_Some (catalog_get db (str_of_ObjectId (_id d))).
Proof.
  intros Hin. unfold catalog_get.
  destruct (last _) as [d'|] eqn:E; [eauto|].
  apply last_None in E.
  assert (Hf : In d (List.filter
    (fun d' => String.eqb (str_of_ObjectId (_id d'))
                 (str_of_ObjectId (_id d))) (db_product db))).
  { apply List.filter_In. split; [apply list_elem_of_In, Hin|].
    apply String.eqb_refl. }
  rewrite E in Hf. destruct Hf.
Qed.

Lemma catalog_get_NoDup db d :
  NoDup (_id <$> db_product db) -> d ∈ db_product db ->
  catalog_get db (str_of_ObjectId (_id d)) = Some d.
Proof.
  intros Hnd Hin.
  destruct (catalog_get_is_Some db d Hin) as [d' Hd'].
  rewrite Hd'. f_equal.
  apply catalog_get_Some in Hd' as [Hin' Hid].
  apply str_of_ObjectId_inj in Hid.
  apply list_elem_of_lookup in Hin as [i Hi].
  apply list_elem_of_lookup in Hin' as [j Hj].
  assert (i = j) as <-.
  { eapply NoDup_lookup; [exact Hnd| |].
    - rewrite list_lookup_fmap, Hi. reflexivity.
    - rewrite list_lookup_fmap, Hj. cbn. rewrite Hid. reflexivity. }
  congruence.
Qed.
End ListProducts.

(** X14: [/products] answers with one entry per stored product, in store
    order, and changes nothing. Every entry carries the product as stored
    and an identifier text of 24 hexadecimal digits that [ObjectId] reads
    back to the product's own identifier, and that names a product of the
    catalog: used as a product_id in a cart it raises neither InvalidId nor
    the 404. *)
Theorem list_products_ids db :
  exists entries,
    list_products db = (Ok entries, db)
    /\ Forall2 (fun (d : Document Product.t) entry =>
                  listed entry = body d
                  /\ exists s,
                       listed_id entry = Some s
                       /\ ObjectId_of_str s = Some (_id d)
                       /\ ObjectId_binary s = Some (oid_bytes (_id d))
                       /\ is_Some (catalog_get db s))
         (db_product db) entries.
Proof.
  eexists. split; [apply list_products_eq|].
  apply Forall2_fmap_r, Forall_Forall2_diag, Forall_forall.
  intros d Hin. split; [reflexivity|].
  eexists. split; [reflexivity|].
  split; [apply ObjectId_of_str_str|].
  split; [apply ObjectId_binary_str|apply catalog_get_is_Some, Hin].
Qed.

(** X15: what [/products] lists can be bought. In a catalog whose
    identifiers are distinct, a listed product with a price that is not
    negative, ordered under its listed identifier with a quantity that is
    at least 1 and converts to a float, is checked out, and the stored item
    carries the listed title and price. *)
Theorem list_products_then_checkout db entries entry s payload quantity :
  NoDup (_id <$> db_product db) ->
  list_products db = (Ok entries, db) ->
  entry ∈ entries ->
  listed_id entry = Some s ->
  Float.nonneg (Product.price (listed entry)) ->
  (1 <= quantity)%Z ->
  is_Some (Float.of_int quantity) ->
  CheckoutRequest.cart payload = [CartItem.Build s quantity] ->
  exists o,
    checkout payload db = (Ok (result_of db o), insert_order db o)
    /\ Order.items o
       = [OrderItem.Build s (Product.title (listed entry))
            (Product.price (listed entry)) quantity].
Proof.
  intros Hnd Hlist Hin Hs Hp Hq Hconv Hcart.
  rewrite list_products_eq in Hlist. injection Hlist as <-.
  apply list_elem_of_fmap in Hin as (d & -> & Hd).
  cbn in Hs, Hp |- *. injection Hs as <-.
  pose proof (catalog_get_NoDup db d Hnd Hd) as Hget.
  destruct (resolve_cart_resolves (CheckoutRequest.cart payload) db)
    as (items & subtotal & E).
  { rewrite Hcart. constructor; [|constructor]. exists d. auto. }
  exists (order_of payload items subtotal).
  split; [apply checkout_resolved, E|].
  apply resolve_cart_Ok in E as (_ & Hsnap & _).
  rewrite Hcart in Hsnap.
  inversion Hsnap as [|? ? ? ? (prod & Hprod & ->) Hrest]; subst.
  inversion Hrest; subst. cbn in Hprod.
  rewrite Hget in Hprod. injection Hprod as <-. reflexivity.
Qed.

Lemma list_products_then_checkout_witness :
  exists o,
    checkout (Sample.request "cod" [CartItem.Build Sample.jag_1000 2])
      Sample.seeded
    = (Ok (result_of Sample.seeded o), insert_order Sample.seeded o)
    /\ Order.items o
       = [OrderItem.Build Sample.jag_1000 "Jaggery Powder 1kg"
            (Float.decimal 449 2) 2].
Proof.
  apply (list_products_then_checkout Sample.seeded
    [{| listed_id := Some Sample.jag_500; listed := jaggery_500 |};
     {| listed_id := Some Sample.jag_1000; listed := jaggery_1000 |}]
    {| listed_id := Some Sample.jag_1000; listed := jaggery_1000 |}
    Sample.jag_1000
    (Sample.request "cod" [CartItem.Build Sample.jag_1000 2]) 2).
  - apply (bool_decide_unpack (NoDup _)). vm_compute. exact I.
  - evaluate.
  - right. left.
  - reflexivity.
  - reflexivity.
  - lia.
  - eexists. evaluate.
  - reflexivity.
Defined.

(** ** The product map, the schemas and the diagnostic endpoint *)

Section Strings.


End Strings.

(** X16: the product map answers for a key with the last fetched product
    whose identifier prints as that key, and with nothing when there is
    none; when the fetched identifiers are distinct, every fetched product
    is found under its own identifier. *)
Theorem product_map_of_get products k :
  (product_map_of products !! k = None
   <-> Forall (fun p => str_of_ObjectId (_id p) <> k) products)
  /\ (forall before p after,
        products = before ++ p :: after ->
        str_of_ObjectId (_id p) = k ->
        Forall (fun q => str_of_ObjectId (_id q) <> k) after ->
        product_map_of products !! k = Some p)
  /\ (forall p, product_map_of products !! k = Some p ->
        p ∈ products /\ str_of_ObjectId (_id p) = k).
Proof.
  rewrite product_map_of_lookup.
  set (f := fun d : Document Product.t =>
              String.eqb (str_of_ObjectId (_id d)) k).
  assert (Hnone : forall l,
    Forall (fun p => str_of_ObjectId (_id p) <> k) l ->
    List.filter f l = []).
  { intros l Hl. induction Hl as [|p l Hp _ IH]; [reflexivity|].
    cbn. unfold f at 1. rewrite (proj2 (String.eqb_neq _ _) Hp).
    exact IH. }
  split; [|split].
  - split.
    + intros H. apply last_None in H. apply Forall_forall. intros p Hin Hk.
      assert (Hf : In p (List.filter f products)).
      { apply List.filter_In. split; [apply list_elem_of_In, Hin|].
        apply String.eqb_eq, Hk. }
      rewrite H in Hf. destruct Hf.
    + intros H. rewrite (Hnone _ H). reflexivity.
  - intros before p after -> Hk Hafter.
    rewrite List.filter_app. cbn. unfold f at 2.
    rewrite (proj2 (String.eqb_eq _ _) Hk), (Hnone _ Hafter).
    apply last_snoc.
  - intros p H. apply last_Some in H as [l Hl].
    assert (Hf : In p (List.filter f products)).
    { rewrite Hl. apply in_or_app. right. left. reflexivity. }
    apply List.filter_In in Hf as [Hin Hk].
    split; [apply list_elem_of_In, Hin|apply String.eqb_eq, Hk].
Qed.

(** X17: [Product] accepts exactly a price that is a zero of either sign, a
    positive finite float or plus infinity (NaN and negative prices are
    refused) together with a weight that is absent or not negative; what it
    builds has the fields it was given, and what it raises is a [Product]
    validation error naming the fields at fault. *)
Theorem Product_new_accepts title description price category in_stock image
    sku weight_g :
  (Float.nonneg price /\ from_option (fun w => (0 <= w)%Z) True weight_g ->
   Product.new title description price category in_stock image sku weight_g
   = Ok (Product.Build title description price category in_stock image sku
           weight_g))
  /\ (~ (Float.nonneg price
         /\ from_option (fun w => (0 <= w)%Z) True weight_g) ->
      exists field fields,
        Product.new title description price category in_stock image sku
          weight_g
        = Err (ValidationError "Product" (field :: fields))
        /\ (field :: fields) ⊆ ["price"; "weight_g"]).
Proof.
  unfold Product.new, check.
  destruct (Float.ge price Float.zero) eqn:Ep.
  - apply nonneg_ge_zero in Ep. destruct weight_g as [w|]; cbn.
    + destruct (Z.leb_spec 0 w) as [Hw|Hw]; cbn.
      * split; [reflexivity|]. intros H. exfalso. apply H. auto.
      * split; [intros [_ H]; lia|]. intros _.
        exists "weight_g", []. split; [reflexivity|]. set_solver.
    + split; [reflexivity|]. intros H. exfalso. apply H. auto.
  - assert (Hp : ~ Float.nonneg price).
    { rewrite nonneg_ge_zero, Ep. discriminate. }
    split; [intros [H _]; contradiction|]. intros _.
    exists "price". eexists. split; [reflexivity|].
    destruct weight_g as [w|]; cbn; [destruct (0 <=? w)%Z|];
      cbn; set_solver.
Qed.

(** X18: [User] accepts exactly an age that is absent or between 0 and
    120; [is_active] is [True] unless the caller says otherwise, and a
    refused age is reported as the one field at fault. *)
Theorem User_new_accepts name email address age is_active :
  (from_option (fun a => (0 <= a <= 120)%Z) True age ->
   User.new name email address age is_active
   = Ok (User.Build name email address age (default true is_active)))
  /\ (~ from_option (fun a => (0 <= a <= 120)%Z) True age ->
      User.new name email address age is_active
      = Err (ValidationError "User" ["age"])).
Proof.
  unfold User.new, check. destruct age as [a|]; cbn.
  - destruct (Z.leb_spec 0 a), (Z.leb_spec a 120); cbn;
      (split; [intros; try reflexivity; lia|intros; try reflexivity; lia]).
  - split; [reflexivity|]. intros H. exfalso. apply H. exact I.
Qed.

(** X19: [/test] reports "Connected" exactly when there is a database
    handle, shows the text "Connected & Working" exactly when listing the
    collections succeeded, and returns collection names only in that
    case. *)
Theorem test_database_status db DATABASE_URL :
  let r := test_database db DATABASE_URL in
  (connection_status r = "Connected" <-> is_Some db)
  /\ (database r = "✅ Connected & Working"
      <-> exists h names,
            db = Some h /\ list_collection_names h = inr names)
  /\ (collections r <> [] -> database r = "✅ Connected & Working").
Proof.
  destruct db as [h|]; cbn.
  - destruct (list_collection_names h) as [e|names] eqn:E; cbn.
    + split; [split; eauto|]. split; [|contradiction].
      split; [discriminate|]. intros (h' & names & [= <-] & H). congruence.
    + split; [split; eauto|]. split; [|reflexivity].
      split; [eauto|reflexivity].
  - split; [split; [discriminate|intros [? ?]; discriminate]|].
    split; [|contradiction].
    split; [discriminate|]. intros (h & names & H & _). discriminate.
Qed.



(** ** Checkout: identifiers with whitespace *)

(** X21: a product_id that [ObjectId] accepts although it is not 24
    hexadecimal digits (it has ASCII whitespace between its digits) is
    converted to fewer than twelve bytes and is never found: once the lines
    before it resolve, checkout raises the 404 that names it, not the 500
    of InvalidId, and stores nothing. *)
Theorem checkout_id_with_whitespace payload db before ci after :
  CheckoutRequest.cart payload = before ++ ci :: after ->
  Forall (fun c => is_Some (ObjectId_binary (CartItem.product_id c)))
    (CheckoutRequest.cart payload) ->
  Forall (line_resolves (catalog_get db)) before ->
  ObjectId_of_str (CartItem.product_id ci) = None ->
  (exists bytes,
     ObjectId_binary (CartItem.product_id ci) = Some bytes
     /\ length bytes < 12)
  /\ checkout payload db
     = (Err (HTTPException 404
               (Text ("Product " +:+ CartItem.product_id ci
                      +:+ " not found"))),
        db).
Proof.
  intros Hcart Hwf Hall Hnot. split.
  - rewrite Hcart in Hwf. apply Forall_app in Hwf as [_ Hwf].
    inversion Hwf as [|? ? [bytes Hb] _]; subst.
    exists bytes. split; [exact Hb|].
    destruct (ObjectId_binary_length _ _ Hb) as [Hle Heq].
    destruct (Nat.eq_dec (length bytes) 12) as [E|E]; [|lia].
    destruct (Heq E) as (o & Ho & _). congruence.
  - rewrite (checkout_unresolved payload db
               (not_found (CartItem.product_id ci))); [reflexivity|].
    rewrite Hcart in Hwf |- *.
    apply resolve_cart_missing; [exact Hwf|exact Hall|].
    destruct (catalog_get db (CartItem.product_id ci)) as [d|] eqn:E;
      [|reflexivity].
    apply catalog_get_wf in E. congruence.
Qed.

Lemma checkout_id_with_whitespace_witness :
  (exists bytes,
     ObjectId_binary "0000000000000000 00 ff  " = Some bytes
     /\ length bytes < 12)
  /\ checkout
       (Sample.request "cod"
          [CartItem.Build Sample.jag_500 1;
           CartItem.Build "0000000000000000 00 ff  " 1])
       Sample.seeded
     = (Err (HTTPException 404
               (Text "Product 0000000000000000 00 ff   not found")),
        Sample.seeded).
Proof.
  apply (checkout_id_with_whitespace
    (Sample.request "cod"
       [CartItem.Build Sample.jag_500 1;
        CartItem.Build "0000000000000000 00 ff  " 1])
    Sample.seeded
    [CartItem.Build Sample.jag_500 1]
    (CartItem.Build "0000000000000000 00 ff  " 1)
    []).
  - reflexivity.
  - constructor; [|constructor; [|constructor]]; eexists; evaluate.
  - constructor; [|constructor]. line_resolves_by_evaluation.
  - evaluate.
Defined.
